(** * Facade/Facade.cpp: the facade, its two subsystems and the driver

    A shallow embedding of [Facade/Facade.cpp].  The program allocates its
    objects with [new], releases them with [delete] and writes to
    [std::cout], so the embedding threads an explicit program state (the
    free store, the text written so far, and a log of the [new]/[delete]
    expressions evaluated) through a small state-and-failure monad.
    Failure ([None]) stands for undefined behaviour: dereferencing a null or
    dangling pointer, reading a member that was never assigned, or releasing
    something that is not a live object of the pointer's class.  [new] is
    taken to succeed always (memory exhaustion is outside the model). *)

From Stdlib Require Import ZArith.
From stdpp Require Import base strings list gmap.


(** ** Objects and pointers *)

(** Addresses of the free store. *)
Abbreviation addr := positive.

(** A raw pointer value: [nullptr] or the address of some storage. *)
Inductive ptr : Type :=
  | nullptr
  | Addr (a : addr).

(** [class Subsystem1] and [class Subsystem2] have no data members. *)
Inductive Subsystem1 : Type := mkSubsystem1.
Inductive Subsystem2 : Type := mkSubsystem2.

(** [class Facade]: two pointer members.  A member holds [None] until it is
    first assigned (its value is indeterminate between the allocation of the
    storage and the assignment in the constructor body). *)
Record Facade : Type := mkFacade {
  subsystem1_ : option ptr;
  subsystem2_ : option ptr
}.

(** What lives at an address: an object of one of the three classes. *)
Inductive object : Type :=
  | ObjSubsystem1 (s : Subsystem1)
  | ObjSubsystem2 (s : Subsystem2)
  | ObjFacade (f : Facade).

(** One entry of the allocation log per evaluated [new] / [delete] of a
    non-null pointer. *)
Inductive mem_event : Type :=
  | EvNew (a : addr)
  | EvDelete (a : addr).

#[global] Instance ptr_eq_dec : EqDecision ptr.
Proof. solve_decision. Defined.
#[global] Instance Subsystem1_eq_dec : EqDecision Subsystem1.
Proof. solve_decision. Defined.
#[global] Instance Subsystem2_eq_dec : EqDecision Subsystem2.
Proof. solve_decision. Defined.
#[global] Instance Facade_eq_dec : EqDecision Facade.
Proof. solve_decision. Defined.
#[global] Instance object_eq_dec : EqDecision object.
Proof. solve_decision. Defined.
#[global] Instance mem_event_eq_dec : EqDecision mem_event.
Proof. solve_decision. Defined.

(** ** Program state *)

Record state : Type := mkState {
  heap : gmap positive object;   (* live objects of the free store *)
  cout : string;                 (* everything written to std::cout *)
  trace : list mem_event         (* allocation log, oldest first *)
}.

Definition initial_state : state :=
  {| heap := ∅; cout := ""; trace := [] |}.

(** ** The monad: state passing, [None] is undefined behaviour *)

Definition M (A : Type) : Type := state -> option (A * state).

Definition ret {A : Type} (a : A) : M A := fun st => Some (a, st).

Definition bind {A B : Type} (m : M A) (k : A -> M B) : M B :=
  fun st =>
    match m st with
    | Some (a, st') => k a st'
    | None => None
    end.

Definition undefined {A : Type} : M A := fun _ => None.

Declare Scope cpp_scope.
Delimit Scope cpp_scope with cpp.
Notation "'let*' x := c1 'in' c2" := (bind c1 (fun x => c2))
  (at level 10, x name, c1 at level 100, c2 at level 200) : cpp_scope.
Notation "c1 ;;; c2" := (bind c1 (fun _ => c2))
  (at level 100, c2 at level 200, right associativity) : cpp_scope.
Open Scope cpp_scope.

(** ** Primitive operations on the state *)

(** Storage for a new object, at an address that holds no live object. *)
Definition alloc (o : object) : M positive :=
  fun st =>
    let a := fresh (dom (heap st)) in
    Some (a, {| heap := <[a := o]> (heap st);
                cout := cout st;
                trace := trace st ++ [EvNew a] |}).

(** Release of the storage at [a]; releasing what is not live is undefined. *)
Definition dealloc (a : positive) : M unit :=
  fun st =>
    match heap st !! a with
    | Some _ => Some (tt, {| heap := delete a (heap st);
                             cout := cout st;
                             trace := trace st ++ [EvDelete a] |})
    | None => None
    end.

(** Access through a pointer: the object it points to, if any. *)
Definition load (p : ptr) : M object :=
  fun st =>
    match p with
    | nullptr => None
    | Addr a =>
        match heap st !! a with
        | Some o => Some (o, st)
        | None => None
        end
    end.

Definition deref_Subsystem1 (p : ptr) : M Subsystem1 :=
  let* o := load p in
  match o with ObjSubsystem1 s => ret s | _ => undefined end.

Definition deref_Subsystem2 (p : ptr) : M Subsystem2 :=
  let* o := load p in
  match o with ObjSubsystem2 s => ret s | _ => undefined end.

Definition deref_Facade (p : ptr) : M Facade :=
  let* o := load p in
  match o with ObjFacade f => ret f | _ => undefined end.

(** Overwrite the object at the address [p] points to. *)
Definition store (p : ptr) (o : object) : M unit :=
  fun st =>
    match p with
    | nullptr => None
    | Addr a =>
        match heap st !! a with
        | Some _ => Some (tt, {| heap := <[a := o]> (heap st);
                                 cout := cout st;
                                 trace := trace st |})
        | None => None
        end
    end.

(** Reading a pointer member: an indeterminate value may not be read. *)
Definition read_member (m : option ptr) : M ptr :=
  match m with Some p => ret p | None => undefined end.

(** [this->subsystem1_] and [this->subsystem2_] as rvalues. *)
Definition get_subsystem1_ (this : ptr) : M ptr :=
  let* f := deref_Facade this in read_member (subsystem1_ f).

Definition get_subsystem2_ (this : ptr) : M ptr :=
  let* f := deref_Facade this in read_member (subsystem2_ f).

(** [this->subsystem1_ = v] and [this->subsystem2_ = v]. *)
Definition set_subsystem1_ (this : ptr) (v : ptr) : M unit :=
  let* f := deref_Facade this in
  store this (ObjFacade {| subsystem1_ := Some v; subsystem2_ := subsystem2_ f |}).

Definition set_subsystem2_ (this : ptr) (v : ptr) : M unit :=
  let* f := deref_Facade this in
  store this (ObjFacade {| subsystem1_ := subsystem1_ f; subsystem2_ := Some v |}).

(** A pointer used as a condition: true exactly when it is not null. *)
Definition to_bool (p : ptr) : bool :=
  match p with nullptr => false | Addr _ => true end.

(** [std::cout << s] and [std::cout << std::endl]. *)
Definition cout_write (s : string) : M unit :=
  fun st => Some (tt, {| heap := heap st; cout := cout st +:+ s; trace := trace st |}).

Definition newline : string := String (Ascii.ascii_of_nat 10) "".

Definition cout_endl : M unit := cout_write newline.

(** ** class Subsystem1 *)

Definition Subsystem1_Operation1 (this : ptr) : M string :=
  let* _ := deref_Subsystem1 this in
  ret ("Subsystem1: Ready!" +:+ newline).

Definition Subsystem1_OperationN (this : ptr) : M string :=
  let* _ := deref_Subsystem1 this in
  ret ("Subsystem1: Go!" +:+ newline).

(** [new Subsystem1] (the implicit default constructor does nothing). *)
Definition new_Subsystem1 : M ptr :=
  let* a := alloc (ObjSubsystem1 mkSubsystem1) in
  ret (Addr a).

(** [delete p] for [p : Subsystem1*]; deleting [nullptr] does nothing. *)
Definition delete_Subsystem1 (p : ptr) : M unit :=
  match p with
  | nullptr => ret tt
  | Addr a => let* _ := deref_Subsystem1 p in dealloc a
  end.

(** ** class Subsystem2 *)

Definition Subsystem2_Operation1 (this : ptr) : M string :=
  let* _ := deref_Subsystem2 this in
  ret ("Subsystem2: Get ready!" +:+ newline).

Definition Subsystem2_OperationZ (this : ptr) : M string :=
  let* _ := deref_Subsystem2 this in
  ret ("Subsystem2: Fire!" +:+ newline).

Definition new_Subsystem2 : M ptr :=
  let* a := alloc (ObjSubsystem2 mkSubsystem2) in
  ret (Addr a).

Definition delete_Subsystem2 (p : ptr) : M unit :=
  match p with
  | nullptr => ret tt
  | Addr a => let* _ := deref_Subsystem2 p in dealloc a
  end.

(** ** class Facade *)

(** [Facade::Facade(Subsystem1* subsystem1, Subsystem2* subsystem2)], run on
    the storage [this] points to. *)
Definition Facade_ctor (this : ptr) (subsystem1 subsystem2 : ptr) : M unit :=
  let* v1 := (if to_bool subsystem1 then ret subsystem1 else new_Subsystem1) in
  set_subsystem1_ this v1 ;;;
  let* v2 := (if to_bool subsystem2 then ret subsystem2 else new_Subsystem2) in
  set_subsystem2_ this v2.

(** [Facade::~Facade()]. *)
Definition Facade_dtor (this : ptr) : M unit :=
  let* p1 := get_subsystem1_ this in
  delete_Subsystem1 p1 ;;;
  let* p2 := get_subsystem2_ this in
  delete_Subsystem2 p2.

(** [std::string Facade::Operation()]. *)
Definition Facade_Operation (this : ptr) : M string :=
  let result := "Facade initializes subsystems:" +:+ newline in
  let* p := get_subsystem1_ this in
  let* s := Subsystem1_Operation1 p in
  let result := result +:+ s in
  let* p := get_subsystem2_ this in
  let* s := Subsystem2_Operation1 p in
  let result := result +:+ s in
  let result := result +:+ ("Facade orders subsystems to perform the action:" +:+ newline) in
  let* p := get_subsystem1_ this in
  let* s := Subsystem1_OperationN p in
  let result := result +:+ s in
  let* p := get_subsystem2_ this in
  let* s := Subsystem2_OperationZ p in
  let result := result +:+ s in
  ret result.

(** [new Facade(subsystem1, subsystem2)]: storage first, then the
    constructor on it. *)
Definition new_Facade (subsystem1 subsystem2 : ptr) : M ptr :=
  let* a := alloc (ObjFacade {| subsystem1_ := None; subsystem2_ := None |}) in
  Facade_ctor (Addr a) subsystem1 subsystem2 ;;;
  ret (Addr a).

(** [delete p] for [p : Facade*]: the destructor, then the storage. *)
Definition delete_Facade (p : ptr) : M unit :=
  match p with
  | nullptr => ret tt
  | Addr a => Facade_dtor p ;;; dealloc a
  end.

(** ** The client and the driver *)

Definition ClientCode (facade : ptr) : M unit :=
  let* s := Facade_Operation facade in
  cout_write s.

Definition main : M Z :=
  let* subsystem1 := new_Subsystem1 in
  let* subsystem2 := new_Subsystem2 in
  let* facade := new_Facade subsystem1 subsystem2 in
  ClientCode facade ;;;
  cout_endl ;;;
  let* facade2 := new_Facade nullptr nullptr in
  ClientCode facade2 ;;;
  delete_Facade facade ;;;
  ret 0%Z.

(** ** Well-formedness predicates (executable) *)

(** [p] points to a live object of class Subsystem1 / Subsystem2. *)
Definition is_Subsystem1 (st : state) (p : ptr) : bool :=
  match p with
  | Addr a => match heap st !! a with Some (ObjSubsystem1 _) => true | _ => false end
  | nullptr => false
  end.

Definition is_Subsystem2 (st : state) (p : ptr) : bool :=
  match p with
  | Addr a => match heap st !! a with Some (ObjSubsystem2 _) => true | _ => false end
  | nullptr => false
  end.

(** [this] points to a constructed facade whose two members point to live
    subsystems of the right classes: a facade within its lifetime whose
    subsystems nobody has released behind its back. *)
Definition facade_ready (st : state) (this : ptr) : bool :=
  match this with
  | Addr a =>
      match heap st !! a with
      | Some (ObjFacade {| subsystem1_ := Some p1; subsystem2_ := Some p2 |}) =>
          is_Subsystem1 st p1 && is_Subsystem2 st p2
      | _ => false
      end
  | nullptr => false
  end.

(** The text [Facade::Operation] is expected to return, written out. *)
Definition Operation_text : string :=
"Facade initializes subsystems:
Subsystem1: Ready!
Subsystem2: Get ready!
Facade orders subsystems to perform the action:
Subsystem1: Go!
Subsystem2: Fire!
".

(** The same text as the byte values of its characters. *)
Definition Operation_bytes : list nat :=
  [70;97;99;97;100;101;32;105;110;105;116;105;97;108;105;122;101;115;32;
   115;117;98;115;121;115;116;101;109;115;58;10;
   83;117;98;115;121;115;116;101;109;49;58;32;82;101;97;100;121;33;10;
   83;117;98;115;121;115;116;101;109;50;58;32;71;101;116;32;114;101;97;
   100;121;33;10;
   70;97;99;97;100;101;32;111;114;100;101;114;115;32;115;117;98;115;121;
   115;116;101;109;115;32;116;111;32;112;101;114;102;111;114;109;32;116;
   104;101;32;97;99;116;105;111;110;58;10;
   83;117;98;115;121;115;116;101;109;49;58;32;71;111;33;10;
   83;117;98;115;121;115;116;101;109;50;58;32;70;105;114;101;33;10].

Fixpoint string_bytes (s : string) : list nat :=
  match s with
  | EmptyString => []
  | String c s' => Ascii.nat_of_ascii c :: string_bytes s'
  end.

(** ** Client programs

    What a client can do with the three classes as the source declares
    them: create objects, call the public member functions, print, and
    delete through a typed pointer.  A [call] is one such statement; its
    pointer arguments are arbitrary values, so a list of calls covers every
    straight-line client built from these statements.  (The copy operations
    the compiler would generate for [Facade] are not written in the source
    and are never used by it; they are not part of this interface.) *)
Inductive call : Type :=
  | CallNewSubsystem1
  | CallNewSubsystem2
  | CallNewFacade (subsystem1 subsystem2 : ptr)
  | CallSubsystem1_Operation1 (p : ptr)
  | CallSubsystem1_OperationN (p : ptr)
  | CallSubsystem2_Operation1 (p : ptr)
  | CallSubsystem2_OperationZ (p : ptr)
  | CallFacade_Operation (p : ptr)
  | CallClientCode (p : ptr)
  | CallCoutEndl
  | CallDeleteSubsystem1 (p : ptr)
  | CallDeleteSubsystem2 (p : ptr)
  | CallDeleteFacade (p : ptr).

#[global] Instance call_eq_dec : EqDecision call.
Proof. solve_decision. Defined.

Definition exec (c : call) : M unit :=
  match c with
  | CallNewSubsystem1 => new_Subsystem1 ;;; ret tt
  | CallNewSubsystem2 => new_Subsystem2 ;;; ret tt
  | CallNewFacade subsystem1 subsystem2 => new_Facade subsystem1 subsystem2 ;;; ret tt
  | CallSubsystem1_Operation1 p => Subsystem1_Operation1 p ;;; ret tt
  | CallSubsystem1_OperationN p => Subsystem1_OperationN p ;;; ret tt
  | CallSubsystem2_Operation1 p => Subsystem2_Operation1 p ;;; ret tt
  | CallSubsystem2_OperationZ p => Subsystem2_OperationZ p ;;; ret tt
  | CallFacade_Operation p => Facade_Operation p ;;; ret tt
  | CallClientCode p => ClientCode p
  | CallCoutEndl => cout_endl
  | CallDeleteSubsystem1 p => delete_Subsystem1 p
  | CallDeleteSubsystem2 p => delete_Subsystem2 p
  | CallDeleteFacade p => delete_Facade p
  end.

Fixpoint exec_all (cs : list call) : M unit :=
  match cs with
  | [] => ret tt
  | c :: cs' => exec c ;;; exec_all cs'
  end.

(** [n] calls of [Facade::Operation] in a row, collecting the results. *)
Fixpoint Operation_times (n : nat) (this : ptr) : M (list string) :=
  match n with
  | O => ret []
  | S n' =>
      let* s := Facade_Operation this in
      let* rest := Operation_times n' this in
      ret (s :: rest)
  end.

(** The value a computation returns, forgetting the final state. *)
Definition eval {A : Type} (m : M A) (st : state) : option A :=
  match m st with
  | Some (a, _) => Some a
  | None => None
  end.

(** A small concrete state: a client's two subsystems at addresses 1 and 2
    and a facade at address 3 built from them. *)
Definition demo_heap : gmap positive object :=
  <[3%positive := ObjFacade {| subsystem1_ := Some (Addr 1); subsystem2_ := Some (Addr 2) |}]>
    (<[2%positive := ObjSubsystem2 mkSubsystem2]>
       (<[1%positive := ObjSubsystem1 mkSubsystem1]> ∅)).

Definition demo_state : state :=
  {| heap := demo_heap; cout := ""; trace := [EvNew 1; EvNew 2; EvNew 3] |}.

(** The client's two subsystems alone, before any facade exists. *)
Definition client_state : state :=
  {| heap := <[2%positive := ObjSubsystem2 mkSubsystem2]>
               (<[1%positive := ObjSubsystem1 mkSubsystem1]> ∅);
     cout := "";
     trace := [EvNew 1; EvNew 2] |}.

(** The client program [cs] never deletes the facade [this] points to. *)
Definition never_deletes (this : ptr) (cs : list call) : bool :=
  forallb (fun c => negb (bool_decide (c = CallDeleteFacade this))) cs.

(** A computation keeps the facade object [F] at address [a]: whenever it
    runs to completion from a state holding [F] at [a], [F] is still there. *)
Definition keeps {A : Type} (a : positive) (F : Facade) (m : M A) : Prop :=
  forall st r st',
    heap st !! a = Some (ObjFacade F) ->
    m st = Some (r, st') ->
    heap st' !! a = Some (ObjFacade F).

(** A client that hands its Subsystem1 to a facade (which creates the
    Subsystem2 itself, at address 4), and what it goes on to do while the
    facade at address 3 lives. *)
Definition mixed_state : state :=
  {| heap := <[3%positive := ObjFacade {| subsystem1_ := Some (Addr 1);
                                          subsystem2_ := Some (Addr 4) |}]>
               (<[4%positive := ObjSubsystem2 mkSubsystem2]>
                  (<[2%positive := ObjSubsystem2 mkSubsystem2]>
                     (<[1%positive := ObjSubsystem1 mkSubsystem1]> ∅)));
     cout := "";
     trace := [EvNew 1; EvNew 2; EvNew 3; EvNew 4] |}.

Definition mixed_calls : list call :=
  [CallClientCode (Addr 3); CallCoutEndl; CallNewFacade nullptr nullptr;
   CallFacade_Operation (Addr 5); CallDeleteFacade (Addr 5);
   CallDeleteSubsystem2 (Addr 2); CallDeleteSubsystem1 (Addr 1);
   CallNewSubsystem2].

(** ** Auxiliary notions for the further properties *)

(** The free store with the object a (non-null) pointer points to removed. *)
Definition without (p : ptr) (h : gmap positive object) : gmap positive object :=
  match p with
  | Addr a => delete a h
  | nullptr => h
  end.

(** An argument the constructor can take safely: null, or a pointer to a
    live subsystem of the parameter's class. *)
Definition arg1_ok (st : state) (p : ptr) : bool :=
  if to_bool p then is_Subsystem1 st p else true.

Definition arg2_ok (st : state) (p : ptr) : bool :=
  if to_bool p then is_Subsystem2 st p else true.

(** What one client statement prints: only [ClientCode] and the line break
    write to [std::cout]. *)
Definition printed (c : call) : string :=
  match c with
  | CallClientCode _ => Operation_text
  | CallCoutEndl => newline
  | _ => ""
  end.

Fixpoint printed_all (cs : list call) : string :=
  match cs with
  | [] => ""
  | c :: cs' => printed c +:+ printed_all cs'
  end.

(** A computation writes [out] to [std::cout] whenever it completes. *)
Definition writes {A : Type} (out : string) (m : M A) : Prop :=
  forall st r st', m st = Some (r, st') -> cout st' = cout st +:+ out.

(** Two facades with subsystems of their own: the one of [demo_state] at
    address 3 and a second one at address 4 with subsystems at 5 and 6. *)
Definition two_facades_state : state :=
  {| heap := <[6%positive := ObjSubsystem2 mkSubsystem2]>
               (<[5%positive := ObjSubsystem1 mkSubsystem1]>
                  (<[4%positive := ObjFacade {| subsystem1_ := Some (Addr 5);
                                                subsystem2_ := Some (Addr 6) |}]>
                     demo_heap));
     cout := "";
     trace := [EvNew 1; EvNew 2; EvNew 3; EvNew 4; EvNew 5; EvNew 6] |}.

(** Two facades have a subsystem in common: their first members are equal
    or their second members are. *)
Definition shares_subsystem (st : state) (f g : ptr) : bool :=
  match f, g with
  | Addr a, Addr b =>
      match heap st !! a, heap st !! b with
      | Some (ObjFacade F), Some (ObjFacade G) =>
          bool_decide (subsystem1_ F = subsystem1_ G)
          || bool_decide (subsystem2_ F = subsystem2_ G)
      | _, _ => false
      end
  | _, _ => false
  end.

(** Two facades, at addresses 3 and 4, built from the same two subsystems
    of the client. *)
Definition shared_state : state :=
  {| heap := <[4%positive := ObjFacade {| subsystem1_ := Some (Addr 1);
                                          subsystem2_ := Some (Addr 2) |}]> demo_heap;
     cout := "";
     trace := [EvNew 1; EvNew 2; EvNew 3; EvNew 4] |}.

(** The client statements that release something. *)
Definition is_delete (c : call) : bool :=
  match c with
  | CallDeleteSubsystem1 _ | CallDeleteSubsystem2 _ | CallDeleteFacade _ => true
  | _ => false
  end.

Definition no_deletes (cs : list call) : bool :=
  forallb (fun c => negb (is_delete c)) cs.

(** A client program without deletions, run from [demo_state]. *)
Definition growing_calls : list call :=
  [CallNewFacade (Addr 1) nullptr; CallClientCode (Addr 4); CallNewSubsystem1;
   CallCoutEndl; CallSubsystem2_OperationZ (Addr 5); CallNewFacade nullptr nullptr].

(** * Basic facts about the monad and the primitives *)

Lemma bind_Some {A B : Type} (m : M A) (k : A -> M B) st r :
  bind m k st = Some r <->
  exists a st', m st = Some (a, st') /\ k a st' = Some r.
Proof.
  unfold bind. split.
  - destruct (m st) as [[a st']|]; [eauto | discriminate].
  - intros (a & st' & -> & Hk). exact Hk.
Qed.

Lemma bind_run {A B : Type} (m : M A) (k : A -> M B) st a st' :
  m st = Some (a, st') -> bind m k st = k a st'.
Proof. unfold bind. intros ->. reflexivity. Qed.

Lemma load_live st a o :
  heap st !! a = Some o -> load (Addr a) st = Some (o, st).
Proof. unfold load. intros ->. reflexivity. Qed.

Lemma is_Subsystem1_inv st p :
  is_Subsystem1 st p = true ->
  exists a s, p = Addr a /\ heap st !! a = Some (ObjSubsystem1 s).
Proof.
  destruct p as [|a]; simpl; [discriminate|].
  destruct (heap st !! a) as [[s| |]|] eqn:E; try discriminate. eauto.
Qed.

Lemma is_Subsystem2_inv st p :
  is_Subsystem2 st p = true ->
  exists a s, p = Addr a /\ heap st !! a = Some (ObjSubsystem2 s).
Proof.
  destruct p as [|a]; simpl; [discriminate|].
  destruct (heap st !! a) as [[|s|]|] eqn:E; try discriminate. eauto.
Qed.

Lemma facade_ready_inv st this :
  facade_ready st this = true ->
  exists a p1 p2,
    this = Addr a /\
    heap st !! a = Some (ObjFacade {| subsystem1_ := Some p1; subsystem2_ := Some p2 |}) /\
    is_Subsystem1 st p1 = true /\ is_Subsystem2 st p2 = true.
Proof.
  destruct this as [|a]; simpl; [discriminate|].
  destruct (heap st !! a) as [[| |[[p1|] [p2|]]]|] eqn:E; try discriminate.
  intros [H1 H2]%andb_prop. eauto 10.
Qed.

Lemma deref_Subsystem1_live st a s :
  heap st !! a = Some (ObjSubsystem1 s) -> deref_Subsystem1 (Addr a) st = Some (s, st).
Proof. intros H. unfold deref_Subsystem1. rewrite (bind_run _ _ _ _ _ (load_live _ _ _ H)). reflexivity. Qed.

Lemma deref_Subsystem2_live st a s :
  heap st !! a = Some (ObjSubsystem2 s) -> deref_Subsystem2 (Addr a) st = Some (s, st).
Proof. intros H. unfold deref_Subsystem2. rewrite (bind_run _ _ _ _ _ (load_live _ _ _ H)). reflexivity. Qed.

Lemma deref_Facade_live st a f :
  heap st !! a = Some (ObjFacade f) -> deref_Facade (Addr a) st = Some (f, st).
Proof. intros H. unfold deref_Facade. rewrite (bind_run _ _ _ _ _ (load_live _ _ _ H)). reflexivity. Qed.

Lemma get_subsystem1__live st a p1 m2 :
  heap st !! a = Some (ObjFacade {| subsystem1_ := Some p1; subsystem2_ := m2 |}) ->
  get_subsystem1_ (Addr a) st = Some (p1, st).
Proof. intros H. unfold get_subsystem1_. rewrite (bind_run _ _ _ _ _ (deref_Facade_live _ _ _ H)). reflexivity. Qed.

Lemma get_subsystem2__live st a m1 p2 :
  heap st !! a = Some (ObjFacade {| subsystem1_ := m1; subsystem2_ := Some p2 |}) ->
  get_subsystem2_ (Addr a) st = Some (p2, st).
Proof. intros H. unfold get_subsystem2_. rewrite (bind_run _ _ _ _ _ (deref_Facade_live _ _ _ H)). reflexivity. Qed.

(** * The subsystems' operations *)

Lemma Subsystem1_Operation1_live st p :
  is_Subsystem1 st p = true ->
  Subsystem1_Operation1 p st = Some ("Subsystem1: Ready!" +:+ newline, st).
Proof.
  intros (a & s & -> & H)%is_Subsystem1_inv. unfold Subsystem1_Operation1.
  rewrite (bind_run _ _ _ _ _ (deref_Subsystem1_live _ _ _ H)). reflexivity.
Qed.

Lemma Subsystem1_OperationN_live st p :
  is_Subsystem1 st p = true ->
  Subsystem1_OperationN p st = Some ("Subsystem1: Go!" +:+ newline, st).
Proof.
  intros (a & s & -> & H)%is_Subsystem1_inv. unfold Subsystem1_OperationN.
  rewrite (bind_run _ _ _ _ _ (deref_Subsystem1_live _ _ _ H)). reflexivity.
Qed.

Lemma Subsystem2_Operation1_live st p :
  is_Subsystem2 st p = true ->
  Subsystem2_Operation1 p st = Some ("Subsystem2: Get ready!" +:+ newline, st).
Proof.
  intros (a & s & -> & H)%is_Subsystem2_inv. unfold Subsystem2_Operation1.
  rewrite (bind_run _ _ _ _ _ (deref_Subsystem2_live _ _ _ H)). reflexivity.
Qed.

Lemma Subsystem2_OperationZ_live st p :
  is_Subsystem2 st p = true ->
  Subsystem2_OperationZ p st = Some ("Subsystem2: Fire!" +:+ newline, st).
Proof.
  intros (a & s & -> & H)%is_Subsystem2_inv. unfold Subsystem2_OperationZ.
  rewrite (bind_run _ _ _ _ _ (deref_Subsystem2_live _ _ _ H)). reflexivity.
Qed.

(** * Facade::Operation *)

(** On a ready facade the composite operation returns the expected text and
    leaves the whole program state as it found it. *)
Lemma Facade_Operation_ready st this :
  facade_ready st this = true ->
  Facade_Operation this st = Some (Operation_text, st).
Proof.
  intros (a & p1 & p2 & -> & Hf & H1 & H2)%facade_ready_inv.
  unfold Facade_Operation.
  rewrite (bind_run _ _ _ _ _ (get_subsystem1__live _ _ _ _ Hf)).
  rewrite (bind_run _ _ _ _ _ (Subsystem1_Operation1_live _ _ H1)).
  rewrite (bind_run _ _ _ _ _ (get_subsystem2__live _ _ _ _ Hf)).
  rewrite (bind_run _ _ _ _ _ (Subsystem2_Operation1_live _ _ H2)).
  rewrite (bind_run _ _ _ _ _ (get_subsystem1__live _ _ _ _ Hf)).
  rewrite (bind_run _ _ _ _ _ (Subsystem1_OperationN_live _ _ H1)).
  rewrite (bind_run _ _ _ _ _ (get_subsystem2__live _ _ _ _ Hf)).
  rewrite (bind_run _ _ _ _ _ (Subsystem2_OperationZ_live _ _ H2)).
  reflexivity.
Qed.

(** Inversion: what a successful run of each read-only step tells. *)
Lemma load_inv p st o st' :
  load p st = Some (o, st') ->
  st' = st /\ exists a, p = Addr a /\ heap st !! a = Some o.
Proof.
  unfold load. destruct p as [|a]; [discriminate|].
  destruct (heap st !! a) as [o'|] eqn:E; [|discriminate].
  intros [= -> ->]. eauto.
Qed.

Lemma deref_Subsystem1_inv p st s st' :
  deref_Subsystem1 p st = Some (s, st') -> st' = st /\ is_Subsystem1 st p = true.
Proof.
  unfold deref_Subsystem1. intros (o & st1 & Hl & Hk)%bind_Some.
  apply load_inv in Hl as (-> & a & -> & Ha).
  destruct o; try discriminate. injection Hk as _ <-.
  unfold is_Subsystem1. rewrite Ha. auto.
Qed.

Lemma deref_Subsystem2_inv p st s st' :
  deref_Subsystem2 p st = Some (s, st') -> st' = st /\ is_Subsystem2 st p = true.
Proof.
  unfold deref_Subsystem2. intros (o & st1 & Hl & Hk)%bind_Some.
  apply load_inv in Hl as (-> & a & -> & Ha).
  destruct o; try discriminate. injection Hk as _ <-.
  unfold is_Subsystem2. rewrite Ha. auto.
Qed.

Lemma deref_Facade_inv p st f st' :
  deref_Facade p st = Some (f, st') ->
  st' = st /\ exists a, p = Addr a /\ heap st !! a = Some (ObjFacade f).
Proof.
  unfold deref_Facade. intros (o & st1 & Hl & Hk)%bind_Some.
  apply load_inv in Hl as (-> & a & -> & Ha).
  destruct o; try discriminate. injection Hk as <- <-. eauto.
Qed.

Lemma get_subsystem1__inv this st p st' :
  get_subsystem1_ this st = Some (p, st') ->
  st' = st /\ exists a f, this = Addr a /\ heap st !! a = Some (ObjFacade f) /\
                         subsystem1_ f = Some p.
Proof.
  unfold get_subsystem1_. intros (f & st1 & Hd & Hk)%bind_Some.
  apply deref_Facade_inv in Hd as (-> & a & -> & Ha).
  unfold read_member in Hk. destruct (subsystem1_ f) as [q|] eqn:E; [|discriminate].
  injection Hk as -> <-. eauto 10.
Qed.

Lemma get_subsystem2__inv this st p st' :
  get_subsystem2_ this st = Some (p, st') ->
  st' = st /\ exists a f, this = Addr a /\ heap st !! a = Some (ObjFacade f) /\
                         subsystem2_ f = Some p.
Proof.
  unfold get_subsystem2_. intros (f & st1 & Hd & Hk)%bind_Some.
  apply deref_Facade_inv in Hd as (-> & a & -> & Ha).
  unfold read_member in Hk. destruct (subsystem2_ f) as [q|] eqn:E; [|discriminate].
  injection Hk as -> <-. eauto 10.
Qed.

Lemma Subsystem1_Operation1_inv p st s st' :
  Subsystem1_Operation1 p st = Some (s, st') -> st' = st /\ is_Subsystem1 st p = true.
Proof.
  unfold Subsystem1_Operation1. intros (x & st1 & Hd & Hk)%bind_Some.
  apply deref_Subsystem1_inv in Hd as (-> & H). injection Hk as _ <-. auto.
Qed.

Lemma Subsystem1_OperationN_inv p st s st' :
  Subsystem1_OperationN p st = Some (s, st') -> st' = st /\ is_Subsystem1 st p = true.
Proof.
  unfold Subsystem1_OperationN. intros (x & st1 & Hd & Hk)%bind_Some.
  apply deref_Subsystem1_inv in Hd as (-> & H). injection Hk as _ <-. auto.
Qed.

Lemma Subsystem2_Operation1_inv p st s st' :
  Subsystem2_Operation1 p st = Some (s, st') -> st' = st /\ is_Subsystem2 st p = true.
Proof.
  unfold Subsystem2_Operation1. intros (x & st1 & Hd & Hk)%bind_Some.
  apply deref_Subsystem2_inv in Hd as (-> & H). injection Hk as _ <-. auto.
Qed.

Lemma Subsystem2_OperationZ_inv p st s st' :
  Subsystem2_OperationZ p st = Some (s, st') -> st' = st /\ is_Subsystem2 st p = true.
Proof.
  unfold Subsystem2_OperationZ. intros (x & st1 & Hd & Hk)%bind_Some.
  apply deref_Subsystem2_inv in Hd as (-> & H). injection Hk as _ <-. auto.
Qed.

(** Whenever the composite operation returns at all, it returns in the very
    state it was called in, and the facade it was called on was ready. *)
Lemma Facade_Operation_frame st this s st' :
  Facade_Operation this st = Some (s, st') -> st' = st /\ facade_ready st this = true.
Proof.
  unfold Facade_Operation.
  intros (p1 & st1 & Hg1 & H)%bind_Some.
  apply get_subsystem1__inv in Hg1 as (-> & a & f & -> & Ha & Hf1).
  apply bind_Some in H as (r1 & st1 & Ho1 & H).
  apply Subsystem1_Operation1_inv in Ho1 as (-> & H1).
  apply bind_Some in H as (p2 & st1 & Hg2 & H).
  apply get_subsystem2__inv in Hg2 as (-> & a' & f' & [= <-] & Ha' & Hf2).
  assert (f' = f) as -> by congruence.
  apply bind_Some in H as (r2 & st1 & Ho2 & H).
  apply Subsystem2_Operation1_inv in Ho2 as (-> & H2).
  apply bind_Some in H as (p1' & st1 & Hg1 & H).
  apply get_subsystem1__inv in Hg1 as (-> & _).
  apply bind_Some in H as (r3 & st1 & Ho3 & H).
  apply Subsystem1_OperationN_inv in Ho3 as (-> & _).
  apply bind_Some in H as (p2' & st1 & Hg2 & H).
  apply get_subsystem2__inv in Hg2 as (-> & _).
  apply bind_Some in H as (r4 & st1 & Ho4 & H).
  apply Subsystem2_OperationZ_inv in Ho4 as (-> & _).
  injection H as _ <-. split; [reflexivity|].
  unfold facade_ready. rewrite Ha. destruct f as [m1 m2]; simpl in *. subst.
  rewrite H1, H2. reflexivity.
Qed.

Lemma Operation_times_ready st this n :
  facade_ready st this = true ->
  Operation_times n this st = Some (replicate n Operation_text, st).
Proof.
  intros H. induction n as [|n IH]; simpl; [reflexivity|].
  rewrite (bind_run _ _ _ _ _ (Facade_Operation_ready _ _ H)).
  rewrite (bind_run _ _ _ _ _ IH). reflexivity.
Qed.

(** C6: each of the four subsystem operations, called on any live instance
    in any program state, returns its one fixed string (ready / go for
    Subsystem1, get ready / fire for Subsystem2) and returns the state
    untouched: no side effect, no failure, no dependence on state. *)
Theorem subsystem_operations_fixed (st : state) (p1 p2 : ptr) :
  is_Subsystem1 st p1 = true ->
  is_Subsystem2 st p2 = true ->
  Subsystem1_Operation1 p1 st = Some ("Subsystem1: Ready!
", st) /\
  Subsystem1_OperationN p1 st = Some ("Subsystem1: Go!
", st) /\
  Subsystem2_Operation1 p2 st = Some ("Subsystem2: Get ready!
", st) /\
  Subsystem2_OperationZ p2 st = Some ("Subsystem2: Fire!
", st).
Proof.
  intros H1 H2.
  rewrite (Subsystem1_Operation1_live _ _ H1), (Subsystem1_OperationN_live _ _ H1),
    (Subsystem2_Operation1_live _ _ H2), (Subsystem2_OperationZ_live _ _ H2).
  repeat split; reflexivity.
Qed.

Lemma subsystem_operations_fixed_witness :
  is_Subsystem1 client_state (Addr 1) = true /\
  is_Subsystem2 client_state (Addr 2) = true /\
  Subsystem1_Operation1 (Addr 1) client_state = Some ("Subsystem1: Ready!
", client_state) /\
  Subsystem2_OperationZ (Addr 2) client_state = Some ("Subsystem2: Fire!
", client_state).
Proof.
  split; [reflexivity|]. split; [reflexivity|].
  pose proof (subsystem_operations_fixed client_state (Addr 1) (Addr 2)
                ltac:(reflexivity) ltac:(reflexivity)) as (H1 & _ & _ & H4).
  split; assumption.
Defined.

(** C1: on every facade whose subsystems are live, Operation() returns the
    first header line, then the results of Subsystem1::Operation1 and
    Subsystem2::Operation1, then the second header line, then the results of
    Subsystem1::OperationN and Subsystem2::OperationZ, concatenated in that
    order; and that text is, byte for byte, the expected one. *)
Theorem Operation_returns_concatenation (st : state) (this : ptr) :
  facade_ready st this = true ->
  exists p1 p2 r1 r2 r3 r4,
    get_subsystem1_ this st = Some (p1, st) /\
    get_subsystem2_ this st = Some (p2, st) /\
    Subsystem1_Operation1 p1 st = Some (r1, st) /\
    Subsystem2_Operation1 p2 st = Some (r2, st) /\
    Subsystem1_OperationN p1 st = Some (r3, st) /\
    Subsystem2_OperationZ p2 st = Some (r4, st) /\
    Facade_Operation this st =
      Some (("Facade initializes subsystems:" +:+ newline) +:+ r1 +:+ r2 +:+
            ("Facade orders subsystems to perform the action:" +:+ newline) +:+
            r3 +:+ r4, st) /\
    Facade_Operation this st = Some (Operation_text, st) /\
    string_bytes Operation_text = Operation_bytes.
Proof.
  intros H. pose proof (Facade_Operation_ready _ _ H) as Hop.
  destruct (facade_ready_inv _ _ H) as (a & p1 & p2 & -> & Hf & H1 & H2).
  exists p1, p2. do 4 eexists.
  split; [exact (get_subsystem1__live _ _ _ _ Hf)|].
  split; [exact (get_subsystem2__live _ _ _ _ Hf)|].
  split; [exact (Subsystem1_Operation1_live _ _ H1)|].
  split; [exact (Subsystem2_Operation1_live _ _ H2)|].
  split; [exact (Subsystem1_OperationN_live _ _ H1)|].
  split; [exact (Subsystem2_OperationZ_live _ _ H2)|].
  split; [exact Hop|]. split; [exact Hop|]. reflexivity.
Qed.

Lemma Operation_returns_concatenation_witness :
  facade_ready demo_state (Addr 3) = true /\
  Facade_Operation (Addr 3) demo_state = Some (Operation_text, demo_state).
Proof.
  split; [reflexivity|].
  destruct (Operation_returns_concatenation demo_state (Addr 3) ltac:(reflexivity))
    as (? & ? & ? & ? & ? & ? & _ & _ & _ & _ & _ & _ & _ & H & _).
  exact H.
Defined.

(** * Allocation, construction and destruction *)

Ltac step E := rewrite (bind_run _ _ _ _ _ E).

Lemma alloc_spec o st :
  exists a,
    heap st !! a = None /\
    alloc o st = Some (a, {| heap := <[a := o]> (heap st);
                             cout := cout st;
                             trace := trace st ++ [EvNew a] |}).
Proof.
  exists (fresh (dom (heap st))). split; [|reflexivity].
  apply not_elem_of_dom, is_fresh.
Qed.

Lemma dealloc_live st a o :
  heap st !! a = Some o ->
  dealloc a st = Some (tt, {| heap := delete a (heap st);
                              cout := cout st;
                              trace := trace st ++ [EvDelete a] |}).
Proof. unfold dealloc. intros ->. reflexivity. Qed.

Lemma store_live st a o o' :
  heap st !! a = Some o' ->
  store (Addr a) o st = Some (tt, {| heap := <[a := o]> (heap st);
                                     cout := cout st;
                                     trace := trace st |}).
Proof. unfold store. intros ->. reflexivity. Qed.

Lemma set_subsystem1__live st a f v :
  heap st !! a = Some (ObjFacade f) ->
  set_subsystem1_ (Addr a) v st =
    Some (tt, {| heap := <[a := ObjFacade {| subsystem1_ := Some v;
                                             subsystem2_ := subsystem2_ f |}]> (heap st);
                 cout := cout st;
                 trace := trace st |}).
Proof.
  intros H. unfold set_subsystem1_. step (deref_Facade_live _ _ _ H).
  exact (store_live _ _ _ _ H).
Qed.

Lemma set_subsystem2__live st a f v :
  heap st !! a = Some (ObjFacade f) ->
  set_subsystem2_ (Addr a) v st =
    Some (tt, {| heap := <[a := ObjFacade {| subsystem1_ := subsystem1_ f;
                                             subsystem2_ := Some v |}]> (heap st);
                 cout := cout st;
                 trace := trace st |}).
Proof.
  intros H. unfold set_subsystem2_. step (deref_Facade_live _ _ _ H).
  exact (store_live _ _ _ _ H).
Qed.

Lemma new_Subsystem1_spec st :
  exists a,
    heap st !! a = None /\
    new_Subsystem1 st =
      Some (Addr a, {| heap := <[a := ObjSubsystem1 mkSubsystem1]> (heap st);
                       cout := cout st;
                       trace := trace st ++ [EvNew a] |}).
Proof.
  destruct (alloc_spec (ObjSubsystem1 mkSubsystem1) st) as (a & Ha & E).
  exists a. split; [exact Ha|]. unfold new_Subsystem1. step E. reflexivity.
Qed.

Lemma new_Subsystem2_spec st :
  exists a,
    heap st !! a = None /\
    new_Subsystem2 st =
      Some (Addr a, {| heap := <[a := ObjSubsystem2 mkSubsystem2]> (heap st);
                       cout := cout st;
                       trace := trace st ++ [EvNew a] |}).
Proof.
  destruct (alloc_spec (ObjSubsystem2 mkSubsystem2) st) as (a & Ha & E).
  exists a. split; [exact Ha|]. unfold new_Subsystem2. step E. reflexivity.
Qed.

(** The first half of the constructor body: pick the argument or a new
    Subsystem1, and assign it to the member. *)
Lemma ctor_member1 st a f p :
  heap st !! a = Some (ObjFacade f) ->
  exists v st',
    bind (if to_bool p then ret p else new_Subsystem1)
         (fun v1 => set_subsystem1_ (Addr a) v1) st = Some (tt, st') /\
    cout st' = cout st /\
    match p with
    | Addr _ =>
        v = p /\
        heap st' = <[a := ObjFacade {| subsystem1_ := Some v; subsystem2_ := subsystem2_ f |}]> (heap st) /\
        trace st' = trace st
    | nullptr =>
        exists a1, v = Addr a1 /\ heap st !! a1 = None /\
        heap st' = <[a := ObjFacade {| subsystem1_ := Some v; subsystem2_ := subsystem2_ f |}]>
                     (<[a1 := ObjSubsystem1 mkSubsystem1]> (heap st)) /\
        trace st' = trace st ++ [EvNew a1]
    end.
Proof.
  intros Hf. destruct p as [|x]; simpl.
  - destruct (new_Subsystem1_spec st) as (a1 & Ha1 & E). step E.
    assert (a ≠ a1) by congruence.
    erewrite set_subsystem1__live by (simpl; rewrite lookup_insert_ne by auto; exact Hf).
    do 2 eexists. split; [reflexivity|]. split; [reflexivity|].
    exists a1. auto.
  - unfold bind at 1, ret. erewrite set_subsystem1__live by exact Hf.
    do 2 eexists. split; [reflexivity|]. auto.
Qed.

Lemma ctor_member2 st a f p :
  heap st !! a = Some (ObjFacade f) ->
  exists v st',
    bind (if to_bool p then ret p else new_Subsystem2)
         (fun v2 => set_subsystem2_ (Addr a) v2) st = Some (tt, st') /\
    cout st' = cout st /\
    match p with
    | Addr _ =>
        v = p /\
        heap st' = <[a := ObjFacade {| subsystem1_ := subsystem1_ f; subsystem2_ := Some v |}]> (heap st) /\
        trace st' = trace st
    | nullptr =>
        exists a2, v = Addr a2 /\ heap st !! a2 = None /\
        heap st' = <[a := ObjFacade {| subsystem1_ := subsystem1_ f; subsystem2_ := Some v |}]>
                     (<[a2 := ObjSubsystem2 mkSubsystem2]> (heap st)) /\
        trace st' = trace st ++ [EvNew a2]
    end.
Proof.
  intros Hf. destruct p as [|x]; simpl.
  - destruct (new_Subsystem2_spec st) as (a2 & Ha2 & E). step E.
    assert (a ≠ a2) by congruence.
    erewrite set_subsystem2__live by (simpl; rewrite lookup_insert_ne by auto; exact Hf).
    do 2 eexists. split; [reflexivity|]. split; [reflexivity|].
    exists a2. auto.
  - unfold bind at 1, ret. erewrite set_subsystem2__live by exact Hf.
    do 2 eexists. split; [reflexivity|]. auto.
Qed.

Lemma bind_assoc {A B C : Type} (m : M A) (k : A -> M B) (h : B -> M C) st :
  bind (bind m k) h st = bind m (fun a => bind (k a) h) st.
Proof. unfold bind. destruct (m st) as [[a st']|]; reflexivity. Qed.

Lemma insert_shadow (m : gmap positive object) a b x y z :
  a ≠ b -> <[a := x]> (<[b := y]> (<[a := z]> m)) = <[a := x]> (<[b := y]> m).
Proof.
  intros Hab. apply map_eq. intros i.
  destruct (decide (i = a)) as [->|Hia]; [by rewrite !lookup_insert_eq|].
  rewrite !(lookup_insert_ne _ a) by auto.
  destruct (decide (i = b)) as [->|Hib]; [by rewrite !lookup_insert_eq|].
  rewrite !(lookup_insert_ne _ b) by auto. by rewrite lookup_insert_ne by auto.
Qed.

Lemma Facade_ctor_unfold this p1 p2 st :
  Facade_ctor this p1 p2 st =
  bind (bind (if to_bool p1 then ret p1 else new_Subsystem1)
             (fun v1 => set_subsystem1_ this v1))
       (fun _ => bind (if to_bool p2 then ret p2 else new_Subsystem2)
                      (fun v2 => set_subsystem2_ this v2)) st.
Proof. unfold Facade_ctor. symmetry. apply bind_assoc. Qed.

(** What [new Facade(p1, p2)] does, exactly: [h1] and [h2] are the free
    store after the first and the second parameter have been handled, [t1]
    and [t2] the log entries they caused. *)
Lemma new_Facade_spec st p1 p2 :
  exists a v1 v2 h1 h2 t1 t2 st',
    new_Facade p1 p2 st = Some (Addr a, st') /\
    heap st !! a = None /\
    cout st' = cout st /\
    match p1 with
    | Addr _ => v1 = p1 /\ h1 = heap st /\ t1 = []
    | nullptr =>
        exists a1, v1 = Addr a1 /\ heap st !! a1 = None /\ a1 ≠ a /\
                   h1 = <[a1 := ObjSubsystem1 mkSubsystem1]> (heap st) /\
                   t1 = [EvNew a1]
    end /\
    match p2 with
    | Addr _ => v2 = p2 /\ h2 = h1 /\ t2 = []
    | nullptr =>
        exists a2, v2 = Addr a2 /\ h1 !! a2 = None /\ a2 ≠ a /\
                   h2 = <[a2 := ObjSubsystem2 mkSubsystem2]> h1 /\
                   t2 = [EvNew a2]
    end /\
    h2 !! a = None /\
    heap st' = <[a := ObjFacade {| subsystem1_ := Some v1; subsystem2_ := Some v2 |}]> h2 /\
    trace st' = trace st ++ [EvNew a] ++ t1 ++ t2.
Proof.
  unfold new_Facade.
  destruct (alloc_spec (ObjFacade {| subsystem1_ := None; subsystem2_ := None |}) st)
    as (a & Ha & E).
  step E. clear E.
  set (st0 := {| heap := _; cout := _; trace := _ |}).
  assert (heap st0 !! a = Some (ObjFacade {| subsystem1_ := None; subsystem2_ := None |})) as H0
    by apply lookup_insert_eq.
  destruct (ctor_member1 st0 a _ p1 H0) as (v1 & st1 & E1 & Hc1 & Hm1).
  unfold bind at 1. rewrite Facade_ctor_unfold. step E1. clear E1. simpl in Hm1.
  assert (exists h1 t1,
    match p1 with
    | Addr _ => v1 = p1 /\ h1 = heap st /\ t1 = []
    | nullptr =>
        exists a1, v1 = Addr a1 /\ heap st !! a1 = None /\ a1 ≠ a /\
                   h1 = <[a1 := ObjSubsystem1 mkSubsystem1]> (heap st) /\
                   t1 = [EvNew a1]
    end /\
    h1 !! a = None /\
    heap st1 = <[a := ObjFacade {| subsystem1_ := Some v1; subsystem2_ := None |}]> h1 /\
    trace st1 = trace st ++ [EvNew a] ++ t1) as (h1 & t1 & Hp1 & Hh1a & Hh1 & Ht1).
  { destruct p1 as [|x].
    - destruct Hm1 as (a1 & -> & Hn & Hh & Ht).
      apply lookup_insert_None in Hn as [Hn Hne].
      exists (<[a1 := ObjSubsystem1 mkSubsystem1]> (heap st)), [EvNew a1].
      split; [exists a1; auto|]. split; [by rewrite lookup_insert_ne by auto|].
      split; [rewrite Hh; apply insert_shadow; auto|].
      rewrite Ht. simpl. by rewrite <- app_assoc.
    - destruct Hm1 as (-> & Hh & Ht). exists (heap st), [].
      split; [auto|]. split; [exact Ha|].
      split; [rewrite Hh; apply insert_insert_eq|]. rewrite Ht. reflexivity. }
  assert (heap st1 !! a = Some (ObjFacade {| subsystem1_ := Some v1; subsystem2_ := None |})) as H1
    by (rewrite Hh1; apply lookup_insert_eq).
  destruct (ctor_member2 st1 a _ p2 H1) as (v2 & st2 & E2 & Hc2 & Hm2).
  rewrite E2. clear E2. simpl in Hm2.
  exists a, v1, v2, h1.
  destruct p2 as [|y].
  - destruct Hm2 as (a2 & -> & Hn & Hh & Ht).
    rewrite Hh1 in Hn. apply lookup_insert_None in Hn as [Hn Hne].
    exists (<[a2 := ObjSubsystem2 mkSubsystem2]> h1), t1, [EvNew a2], st2.
    split; [reflexivity|]. split; [exact Ha|]. split; [by rewrite Hc2, Hc1|].
    split; [exact Hp1|]. split; [exists a2; auto|].
    split; [by rewrite lookup_insert_ne by auto|].
    split; [rewrite Hh, Hh1; apply insert_shadow; auto|].
    rewrite Ht, Ht1. by rewrite <- !app_assoc.
  - destruct Hm2 as (-> & Hh & Ht).
    exists h1, t1, [], st2.
    split; [reflexivity|]. split; [exact Ha|]. split; [by rewrite Hc2, Hc1|].
    split; [exact Hp1|]. split; [auto|]. split; [exact Hh1a|].
    split; [rewrite Hh, Hh1; apply insert_insert_eq|].
    rewrite Ht, Ht1. by rewrite app_nil_r.
Qed.

Lemma delete_Subsystem1_live st a :
  is_Subsystem1 st (Addr a) = true ->
  delete_Subsystem1 (Addr a) st =
    Some (tt, {| heap := delete a (heap st);
                 cout := cout st;
                 trace := trace st ++ [EvDelete a] |}).
Proof.
  intros (a' & s & [= <-] & H)%is_Subsystem1_inv. unfold delete_Subsystem1.
  step (deref_Subsystem1_live _ _ _ H). exact (dealloc_live _ _ _ H).
Qed.

Lemma delete_Subsystem2_live st a :
  is_Subsystem2 st (Addr a) = true ->
  delete_Subsystem2 (Addr a) st =
    Some (tt, {| heap := delete a (heap st);
                 cout := cout st;
                 trace := trace st ++ [EvDelete a] |}).
Proof.
  intros (a' & s & [= <-] & H)%is_Subsystem2_inv. unfold delete_Subsystem2.
  step (deref_Subsystem2_live _ _ _ H). exact (dealloc_live _ _ _ H).
Qed.

(** [delete] on a ready facade: the destructor releases the two objects the
    members point to, in member order, then the facade's storage goes. *)
Lemma delete_Facade_ready st this :
  facade_ready st this = true ->
  exists a a1 a2,
    this = Addr a /\
    heap st !! a = Some (ObjFacade {| subsystem1_ := Some (Addr a1);
                                      subsystem2_ := Some (Addr a2) |}) /\
    is_Subsystem1 st (Addr a1) = true /\ is_Subsystem2 st (Addr a2) = true /\
    a1 ≠ a2 /\ a1 ≠ a /\ a2 ≠ a /\
    delete_Facade this st =
      Some (tt, {| heap := delete a (delete a2 (delete a1 (heap st)));
                   cout := cout st;
                   trace := trace st ++ [EvDelete a1; EvDelete a2; EvDelete a] |}).
Proof.
  intros (a & p1 & p2 & -> & Hf & H1 & H2)%facade_ready_inv.
  destruct (is_Subsystem1_inv _ _ H1) as (a1 & s1 & -> & Ha1).
  destruct (is_Subsystem2_inv _ _ H2) as (a2 & s2 & -> & Ha2).
  assert (a1 ≠ a2) by congruence.
  assert (a1 ≠ a) by congruence.
  assert (a2 ≠ a) by congruence.
  exists a, a1, a2. do 7 (split; [assumption || reflexivity|]).
  unfold delete_Facade, Facade_dtor.
  rewrite !bind_assoc.
  step (get_subsystem1__live _ _ _ _ Hf).
  rewrite bind_assoc. step (delete_Subsystem1_live _ _ H1).
  rewrite bind_assoc.
  erewrite (bind_run (get_subsystem2_ (Addr a)))
    by (apply get_subsystem2__live with (m1 := Some (Addr a1)); simpl;
        rewrite lookup_delete_ne by auto; exact Hf).
  erewrite (bind_run (delete_Subsystem2 (Addr a2)))
    by (apply delete_Subsystem2_live; unfold is_Subsystem2; simpl;
        rewrite lookup_delete_ne by auto; rewrite Ha2; reflexivity).
  erewrite dealloc_live
    by (simpl; rewrite !lookup_delete_ne by auto; exact Hf).
  simpl. by rewrite <- !app_assoc.
Qed.

Lemma release_created (h : gmap positive object) a a1 a2 x y z :
  h !! a = None -> h !! a1 = None -> h !! a2 = None ->
  a1 ≠ a -> a2 ≠ a -> a2 ≠ a1 ->
  delete a (delete a2 (delete a1 (<[a := x]> (<[a2 := y]> (<[a1 := z]> h))))) = h.
Proof.
  intros Ha Ha1 Ha2 N1 N2 N3. apply map_eq. intros i.
  destruct (decide (i = a)) as [->|Hi]; [by rewrite lookup_delete_eq|].
  rewrite lookup_delete_ne by auto.
  destruct (decide (i = a2)) as [->|Hi2]; [by rewrite lookup_delete_eq|].
  rewrite lookup_delete_ne by auto.
  destruct (decide (i = a1)) as [->|Hi1]; [by rewrite lookup_delete_eq|].
  rewrite lookup_delete_ne by auto.
  by rewrite !lookup_insert_ne by auto.
Qed.

Lemma release_supplied (h : gmap positive object) a a1 a2 x :
  h !! a = None -> a1 ≠ a -> a2 ≠ a ->
  delete a (delete a2 (delete a1 (<[a := x]> h))) = delete a2 (delete a1 h).
Proof.
  intros Ha N1 N2. apply map_eq. intros i.
  destruct (decide (i = a)) as [->|Hi].
  { rewrite lookup_delete_eq. by rewrite !lookup_delete_ne by auto. }
  rewrite lookup_delete_ne by auto.
  destruct (decide (i = a2)) as [->|Hi2]; [by rewrite !lookup_delete_eq|].
  rewrite !(lookup_delete_ne _ a2) by auto.
  destruct (decide (i = a1)) as [->|Hi1]; [by rewrite !lookup_delete_eq|].
  rewrite !(lookup_delete_ne _ a1) by auto.
  by rewrite lookup_insert_ne by auto.
Qed.

Lemma facade_ready_intro st a a1 a2 s1 s2 :
  heap st !! a = Some (ObjFacade {| subsystem1_ := Some (Addr a1);
                                    subsystem2_ := Some (Addr a2) |}) ->
  heap st !! a1 = Some (ObjSubsystem1 s1) ->
  heap st !! a2 = Some (ObjSubsystem2 s2) ->
  facade_ready st (Addr a) = true.
Proof. intros H H1 H2. unfold facade_ready, is_Subsystem1, is_Subsystem2. by rewrite H, H1, H2. Qed.

(** C7: a facade constructed with no explicit instances creates exactly two
    subsystem instances (fresh addresses [a1], [a2]); destroying it releases
    exactly those two, once each, and nothing else: the log gains one
    [EvDelete] per created object and the free store is back to what it was
    before the construction (no leak, no double release). *)
Theorem owned_facade_teardown (st : state) :
  exists a a1 a2 st1 st2,
    new_Facade nullptr nullptr st = Some (Addr a, st1) /\
    heap st !! a = None /\ heap st !! a1 = None /\ heap st !! a2 = None /\
    NoDup [a; a1; a2] /\
    heap st1 !! a = Some (ObjFacade {| subsystem1_ := Some (Addr a1);
                                       subsystem2_ := Some (Addr a2) |}) /\
    heap st1 !! a1 = Some (ObjSubsystem1 mkSubsystem1) /\
    heap st1 !! a2 = Some (ObjSubsystem2 mkSubsystem2) /\
    trace st1 = trace st ++ [EvNew a; EvNew a1; EvNew a2] /\
    delete_Facade (Addr a) st1 = Some (tt, st2) /\
    trace st2 = trace st1 ++ [EvDelete a1; EvDelete a2; EvDelete a] /\
    heap st2 = heap st /\
    cout st2 = cout st.
Proof.
  destruct (new_Facade_spec st nullptr nullptr)
    as (a & v1 & v2 & h1 & h2 & t1 & t2 & st1 & E & Ha & Hc & Hp1 & Hp2 & Hh2a & Hh & Ht).
  destruct Hp1 as (a1 & -> & Ha1 & N1 & -> & ->).
  destruct Hp2 as (a2 & -> & Hn2 & N2 & -> & ->).
  apply lookup_insert_None in Hn2 as [Ha2 N3].
  assert (heap st1 !! a = Some (ObjFacade {| subsystem1_ := Some (Addr a1);
                                             subsystem2_ := Some (Addr a2) |})) as Hfa
    by (rewrite Hh; apply lookup_insert_eq).
  assert (heap st1 !! a1 = Some (ObjSubsystem1 mkSubsystem1)) as Hf1.
  { rewrite Hh. rewrite !lookup_insert_ne by auto. apply lookup_insert_eq. }
  assert (heap st1 !! a2 = Some (ObjSubsystem2 mkSubsystem2)) as Hf2.
  { rewrite Hh. rewrite lookup_insert_ne by auto. apply lookup_insert_eq. }
  destruct (delete_Facade_ready st1 (Addr a) (facade_ready_intro _ _ _ _ _ _ Hfa Hf1 Hf2))
    as (a' & a1' & a2' & [= <-] & Hfa' & _ & _ & _ & _ & _ & Ed).
  rewrite Hfa in Hfa'. injection Hfa' as <- <-.
  exists a, a1, a2, st1. eexists.
  split; [exact E|]. do 3 (split; [assumption|]).
  split.
  { repeat (apply NoDup_cons; split); try apply NoDup_nil_2;
      rewrite ?elem_of_cons, ?elem_of_nil; intuition congruence. }
  do 3 (split; [assumption|]).
  split; [exact Ht|]. split; [exact Ed|]. simpl.
  split; [reflexivity|]. split; [|exact Hc].
  rewrite Hh. apply release_created; auto.
Qed.

(** C2 (as the code has it): a facade constructed from two live instances
    supplied by the client takes them over.  Destroying the facade releases
    both supplied instances, once each, and then its own storage; after the
    teardown the client's pointers dangle: the instances are no longer
    live, and using or releasing them again is undefined. *)
Theorem supplied_instances_released_by_teardown (st : state) (p1 p2 : ptr) :
  is_Subsystem1 st p1 = true ->
  is_Subsystem2 st p2 = true ->
  exists a a1 a2 st1 st2,
    p1 = Addr a1 /\ p2 = Addr a2 /\
    new_Facade p1 p2 st = Some (Addr a, st1) /\
    delete_Facade (Addr a) st1 = Some (tt, st2) /\
    trace st2 = trace st ++ [EvNew a; EvDelete a1; EvDelete a2; EvDelete a] /\
    heap st2 = delete a2 (delete a1 (heap st)) /\
    is_Subsystem1 st2 p1 = false /\
    is_Subsystem2 st2 p2 = false /\
    Subsystem1_Operation1 p1 st2 = None /\
    Subsystem2_Operation1 p2 st2 = None /\
    delete_Subsystem1 p1 st2 = None /\
    delete_Subsystem2 p2 st2 = None.
Proof.
  intros H1 H2.
  destruct (is_Subsystem1_inv _ _ H1) as (a1 & s1 & -> & Ha1).
  destruct (is_Subsystem2_inv _ _ H2) as (a2 & s2 & -> & Ha2).
  destruct (new_Facade_spec st (Addr a1) (Addr a2))
    as (a & v1 & v2 & h1 & h2 & t1 & t2 & st1 & E & Ha & Hc & Hp1 & Hp2 & Hh2a & Hh & Ht).
  destruct Hp1 as (-> & -> & ->). destruct Hp2 as (-> & -> & ->).
  assert (a1 ≠ a) by congruence. assert (a2 ≠ a) by congruence.
  assert (a1 ≠ a2) by congruence.
  assert (heap st1 !! a = Some (ObjFacade {| subsystem1_ := Some (Addr a1);
                                             subsystem2_ := Some (Addr a2) |})) as Hfa
    by (rewrite Hh; apply lookup_insert_eq).
  assert (heap st1 !! a1 = Some (ObjSubsystem1 s1)) as Hf1
    by (rewrite Hh, lookup_insert_ne by auto; exact Ha1).
  assert (heap st1 !! a2 = Some (ObjSubsystem2 s2)) as Hf2
    by (rewrite Hh, lookup_insert_ne by auto; exact Ha2).
  destruct (delete_Facade_ready st1 (Addr a) (facade_ready_intro _ _ _ _ _ _ Hfa Hf1 Hf2))
    as (a' & a1' & a2' & [= <-] & Hfa' & _ & _ & _ & _ & _ & Ed).
  rewrite Hfa in Hfa'. injection Hfa' as <- <-.
  exists a, a1, a2, st1. eexists.
  do 2 (split; [reflexivity|]). split; [exact E|]. split; [exact Ed|].
  assert (delete a (delete a2 (delete a1 (heap st1))) !! a1 = None) as G1.
  { rewrite !lookup_delete_ne by auto. apply lookup_delete_eq. }
  assert (delete a (delete a2 (delete a1 (heap st1))) !! a2 = None) as G2.
  { rewrite lookup_delete_ne by auto. apply lookup_delete_eq. }
  split. { simpl. rewrite Ht. simpl. by rewrite <- app_assoc. }
  split. { simpl. rewrite Hh. apply release_supplied; auto. }
  unfold is_Subsystem1, is_Subsystem2, Subsystem1_Operation1, Subsystem2_Operation1,
    delete_Subsystem1, delete_Subsystem2, deref_Subsystem1, deref_Subsystem2, bind, load.
  simpl. rewrite G1, G2. repeat split; reflexivity.
Qed.

Lemma supplied_instances_released_by_teardown_witness :
  is_Subsystem1 client_state (Addr 1) = true /\
  is_Subsystem2 client_state (Addr 2) = true /\
  exists a st1 st2,
    new_Facade (Addr 1) (Addr 2) client_state = Some (Addr a, st1) /\
    delete_Facade (Addr a) st1 = Some (tt, st2) /\
    is_Subsystem1 st2 (Addr 1) = false /\
    is_Subsystem2 st2 (Addr 2) = false.
Proof.
  split; [reflexivity|]. split; [reflexivity|].
  destruct (supplied_instances_released_by_teardown client_state (Addr 1) (Addr 2)
              ltac:(reflexivity) ltac:(reflexivity))
    as (a & a1 & a2 & st1 & st2 & _ & _ & E & Ed & _ & _ & G1 & G2 & _).
  exists a, st1, st2. auto.
Defined.

(** C2 (as the claim states it) fails: the client of [main] creates its two
    subsystems at addresses 1 and 2 and hands them to a facade; once that
    facade is deleted neither instance is live any more, calling an
    operation on the client's pointer is undefined, and a release by the
    client, who the claim says still owns them, would be a second release.
    The same holds at the end of [main] itself. *)
Lemma borrowed_instances_do_not_survive_teardown :
  exists st',
    (let* subsystem1 := new_Subsystem1 in
     let* subsystem2 := new_Subsystem2 in
     let* facade := new_Facade subsystem1 subsystem2 in
     delete_Facade facade ;;;
     ret (subsystem1, subsystem2)) initial_state = Some ((Addr 1, Addr 2), st') /\
    is_Subsystem1 st' (Addr 1) = false /\
    is_Subsystem2 st' (Addr 2) = false /\
    heap st' = ∅ /\
    trace st' = [EvNew 1; EvNew 2; EvNew 3; EvDelete 1; EvDelete 2; EvDelete 3] /\
    Subsystem1_Operation1 (Addr 1) st' = None /\
    delete_Subsystem1 (Addr 1) st' = None /\
    delete_Subsystem2 (Addr 2) st' = None /\
    exists st'',
      main initial_state = Some (0%Z, st'') /\
      is_Subsystem1 st'' (Addr 1) = false /\
      is_Subsystem2 st'' (Addr 2) = false.
Proof.
  eexists. split; [vm_compute; reflexivity|].
  do 7 (split; [vm_compute; reflexivity|]).
  eexists. split; [vm_compute; reflexivity|].
  split; vm_compute; reflexivity.
Qed.

(** Construction never disturbs what is already on the free store. *)
Lemma new_Facade_frame st p1 p2 r st' :
  new_Facade p1 p2 st = Some (r, st') -> heap st ⊆ heap st' /\ cout st' = cout st.
Proof.
  destruct (new_Facade_spec st p1 p2)
    as (a & v1 & v2 & h1 & h2 & t1 & t2 & st1 & E & Ha & Hc & Hp1 & Hp2 & Hh2a & Hh & Ht).
  rewrite E. intros [= _ <-]. split; [|exact Hc].
  assert (heap st ⊆ h1) as S1.
  { destruct p1; [destruct Hp1 as (a1 & _ & Hn & _ & -> & _); by apply insert_subseteq|].
    destruct Hp1 as (_ & -> & _). reflexivity. }
  assert (h1 ⊆ h2) as S2.
  { destruct p2; [destruct Hp2 as (a2 & _ & Hn & _ & -> & _); by apply insert_subseteq|].
    destruct Hp2 as (_ & -> & _). reflexivity. }
  rewrite Hh. etransitivity; [exact S1|]. etransitivity; [exact S2|].
  by apply insert_subseteq.
Qed.

Lemma is_Subsystem1_weaken st st' p :
  heap st ⊆ heap st' -> is_Subsystem1 st p = true -> is_Subsystem1 st' p = true.
Proof.
  intros Hs (a & s & -> & H)%is_Subsystem1_inv. unfold is_Subsystem1.
  by rewrite (lookup_weaken _ _ _ _ H Hs).
Qed.

Lemma is_Subsystem2_weaken st st' p :
  heap st ⊆ heap st' -> is_Subsystem2 st p = true -> is_Subsystem2 st' p = true.
Proof.
  intros Hs (a & s & -> & H)%is_Subsystem2_inv. unfold is_Subsystem2.
  by rewrite (lookup_weaken _ _ _ _ H Hs).
Qed.

Lemma facade_ready_weaken st st' this :
  heap st ⊆ heap st' -> facade_ready st this = true -> facade_ready st' this = true.
Proof.
  intros Hs (a & p1 & p2 & -> & Hf & H1 & H2)%facade_ready_inv.
  unfold facade_ready. rewrite (lookup_weaken _ _ _ _ Hf Hs).
  by rewrite (is_Subsystem1_weaken _ _ _ Hs H1), (is_Subsystem2_weaken _ _ _ Hs H2).
Qed.

(** A facade built from arguments that are each null or a live subsystem of
    the right class is ready as soon as [new] returns. *)
Lemma new_Facade_ready st p1 p2 :
  (if to_bool p1 then is_Subsystem1 st p1 else true) = true ->
  (if to_bool p2 then is_Subsystem2 st p2 else true) = true ->
  exists a st',
    new_Facade p1 p2 st = Some (Addr a, st') /\
    facade_ready st' (Addr a) = true.
Proof.
  intros A1 A2.
  destruct (new_Facade_spec st p1 p2)
    as (a & v1 & v2 & h1 & h2 & t1 & t2 & st1 & E & Ha & Hc & Hp1 & Hp2 & Hh2a & Hh & Ht).
  exists a, st1. split; [exact E|].
  destruct (new_Facade_frame _ _ _ _ _ E) as [Hsub _].
  assert (is_Subsystem1 st1 v1 = true) as R1.
  { destruct p1 as [|x].
    - destruct Hp1 as (a1 & -> & Hn & N & -> & _). unfold is_Subsystem1.
      assert (h2 !! a1 = Some (ObjSubsystem1 mkSubsystem1)) as G.
      { destruct p2 as [|y].
        - destruct Hp2 as (a2 & _ & Hn2 & _ & -> & _).
          apply lookup_insert_None in Hn2 as [_ N2].
          rewrite lookup_insert_ne by auto. apply lookup_insert_eq.
        - destruct Hp2 as (_ & -> & _). apply lookup_insert_eq. }
      rewrite Hh, lookup_insert_ne by auto. by rewrite G.
    - destruct Hp1 as (-> & _). cbn [to_bool] in A1. exact (is_Subsystem1_weaken _ _ _ Hsub A1). }
  assert (is_Subsystem2 st1 v2 = true) as R2.
  { destruct p2 as [|y].
    - destruct Hp2 as (a2 & -> & Hn & N & -> & _). unfold is_Subsystem2.
      rewrite Hh, lookup_insert_ne by auto. by rewrite lookup_insert_eq.
    - destruct Hp2 as (-> & _). cbn [to_bool] in A2. exact (is_Subsystem2_weaken _ _ _ Hsub A2). }
  assert (heap st1 !! a = Some (ObjFacade {| subsystem1_ := Some v1;
                                             subsystem2_ := Some v2 |})) as Hfa
    by (rewrite Hh; apply lookup_insert_eq).
  unfold facade_ready. rewrite Hfa. by rewrite R1, R2.
Qed.

(** C4: the constructor handles its two parameters independently.  A
    non-null argument is stored as it is in the corresponding member (and no
    subsystem is created for it); for a null argument a new default
    instance of the corresponding class is created at a fresh address and
    that address is stored. *)
Theorem constructor_stores_or_creates (st : state) (p1 p2 : ptr) :
  exists a v1 v2 st',
    new_Facade p1 p2 st = Some (Addr a, st') /\
    heap st' !! a = Some (ObjFacade {| subsystem1_ := Some v1; subsystem2_ := Some v2 |}) /\
    match p1 with
    | Addr _ => v1 = p1
    | nullptr => exists a1, v1 = Addr a1 /\ heap st !! a1 = None /\
                            heap st' !! a1 = Some (ObjSubsystem1 mkSubsystem1)
    end /\
    match p2 with
    | Addr _ => v2 = p2
    | nullptr => exists a2, v2 = Addr a2 /\ heap st !! a2 = None /\
                            heap st' !! a2 = Some (ObjSubsystem2 mkSubsystem2)
    end /\
    trace st' = trace st ++ [EvNew a]
                  ++ (if to_bool p1 then [] else match v1 with Addr a1 => [EvNew a1] | nullptr => [] end)
                  ++ (if to_bool p2 then [] else match v2 with Addr a2 => [EvNew a2] | nullptr => [] end).
Proof.
  destruct (new_Facade_spec st p1 p2)
    as (a & v1 & v2 & h1 & h2 & t1 & t2 & st1 & E & Ha & Hc & Hp1 & Hp2 & Hh2a & Hh & Ht).
  exists a, v1, v2, st1. split; [exact E|].
  split; [rewrite Hh; apply lookup_insert_eq|].
  assert (heap st ⊆ h1) as S1.
  { destruct p1; [destruct Hp1 as (a1 & _ & Hn & _ & -> & _); by apply insert_subseteq|].
    destruct Hp1 as (_ & -> & _). reflexivity. }
  split; [|split].
  - destruct p1 as [|x]; [|by destruct Hp1].
    destruct Hp1 as (a1 & -> & Hn & N & -> & _). exists a1.
    split; [reflexivity|]. split; [exact Hn|].
    rewrite Hh, lookup_insert_ne by auto.
    destruct p2 as [|y].
    + destruct Hp2 as (a2 & _ & Hn2 & _ & -> & _).
      apply lookup_insert_None in Hn2 as [_ N2].
      rewrite lookup_insert_ne by auto. apply lookup_insert_eq.
    + destruct Hp2 as (_ & -> & _). apply lookup_insert_eq.
  - destruct p2 as [|y]; [|by destruct Hp2].
    destruct Hp2 as (a2 & -> & Hn & N & -> & _). exists a2.
    split; [reflexivity|].
    split; [exact (lookup_weaken_None _ _ _ Hn S1)|].
    rewrite Hh, lookup_insert_ne by auto. apply lookup_insert_eq.
  - rewrite Ht.
    assert (t1 = if to_bool p1 then []
                 else match v1 with Addr a1 => [EvNew a1] | nullptr => [] end) as ->.
    { destruct p1; [by destruct Hp1 as (a1 & -> & _ & _ & _ & ->)|by destruct Hp1 as (_ & _ & ->)]. }
    assert (t2 = if to_bool p2 then []
                 else match v2 with Addr a2 => [EvNew a2] | nullptr => [] end) as ->.
    { destruct p2; [by destruct Hp2 as (a2 & -> & _ & _ & _ & ->)|by destruct Hp2 as (_ & _ & ->)]. }
    reflexivity.
Qed.

(** C3: a facade constructed with no explicit subsystem instances and a
    facade constructed from two live instances of the client return the same
    string from Operation(), namely the expected text, whatever the program
    states they are constructed in. *)
Theorem Operation_same_owned_or_supplied (st st' : state) (p1 p2 : ptr) :
  is_Subsystem1 st' p1 = true ->
  is_Subsystem2 st' p2 = true ->
  exists out,
    eval (let* facade := new_Facade nullptr nullptr in Facade_Operation facade) st = Some out /\
    eval (let* facade := new_Facade p1 p2 in Facade_Operation facade) st' = Some out /\
    out = Operation_text.
Proof.
  intros H1 H2. exists Operation_text.
  destruct (new_Facade_ready st nullptr nullptr) as (a & st1 & E & R); [reflexivity..|].
  destruct (new_Facade_ready st' p1 p2) as (b & st1' & E' & R').
  { destruct p1; [discriminate|exact H1]. }
  { destruct p2; [discriminate|exact H2]. }
  unfold eval. step E. step E'.
  rewrite (Facade_Operation_ready _ _ R), (Facade_Operation_ready _ _ R'). auto.
Qed.

Lemma Operation_same_owned_or_supplied_witness :
  is_Subsystem1 client_state (Addr 1) = true /\
  is_Subsystem2 client_state (Addr 2) = true /\
  exists out,
    eval (let* facade := new_Facade nullptr nullptr in Facade_Operation facade)
         initial_state = Some out /\
    eval (let* facade := new_Facade (Addr 1) (Addr 2) in Facade_Operation facade)
         client_state = Some out /\
    out = Operation_text.
Proof.
  split; [reflexivity|]. split; [reflexivity|].
  exact (Operation_same_owned_or_supplied initial_state client_state (Addr 1) (Addr 2)
           ltac:(reflexivity) ltac:(reflexivity)).
Defined.

(** C10: Operation() on a ready facade returns in the state it was called
    in: the free store (so both members of the facade, and every subsystem
    instance) is the same before and after, and the log shows that nothing
    was created or released. *)
Theorem Operation_leaves_state_unchanged (st : state) (this : ptr) :
  facade_ready st this = true ->
  exists s st',
    Facade_Operation this st = Some (s, st') /\
    st' = st /\
    get_subsystem1_ this st' = get_subsystem1_ this st /\
    get_subsystem2_ this st' = get_subsystem2_ this st /\
    heap st' = heap st /\
    trace st' = trace st.
Proof.
  intros H. exists Operation_text, st.
  split; [exact (Facade_Operation_ready _ _ H)|]. repeat split; reflexivity.
Qed.

Lemma Operation_leaves_state_unchanged_witness :
  facade_ready demo_state (Addr 3) = true /\
  exists s st',
    Facade_Operation (Addr 3) demo_state = Some (s, st') /\ st' = demo_state.
Proof.
  split; [reflexivity|].
  destruct (Operation_leaves_state_unchanged demo_state (Addr 3) ltac:(reflexivity))
    as (s & st' & E & Hst & _).
  exists s, st'. auto.
Defined.

(** C8: the operations are pure, total and deterministic.  Any number of
    consecutive calls of Operation() on a ready facade return the same
    string and leave the state alone; a call on any other ready facade in
    any other state returns that same string; and each subsystem operation
    likewise returns one string for every live instance in every state. *)
Theorem operations_pure_total_deterministic
    (st st' : state) (this this' : ptr) (n : nat) :
  facade_ready st this = true ->
  facade_ready st' this' = true ->
  exists s,
    Facade_Operation this st = Some (s, st) /\
    Facade_Operation this' st' = Some (s, st') /\
    Operation_times n this st = Some (replicate n s, st) /\
    exists r1 rN q1 qZ p1 p2 p1' p2',
      get_subsystem1_ this st = Some (p1, st) /\
      get_subsystem2_ this st = Some (p2, st) /\
      get_subsystem1_ this' st' = Some (p1', st') /\
      get_subsystem2_ this' st' = Some (p2', st') /\
      Subsystem1_Operation1 p1 st = Some (r1, st) /\
      Subsystem1_Operation1 p1' st' = Some (r1, st') /\
      Subsystem1_OperationN p1 st = Some (rN, st) /\
      Subsystem1_OperationN p1' st' = Some (rN, st') /\
      Subsystem2_Operation1 p2 st = Some (q1, st) /\
      Subsystem2_Operation1 p2' st' = Some (q1, st') /\
      Subsystem2_OperationZ p2 st = Some (qZ, st) /\
      Subsystem2_OperationZ p2' st' = Some (qZ, st').
Proof.
  intros H H'. exists Operation_text.
  split; [exact (Facade_Operation_ready _ _ H)|].
  split; [exact (Facade_Operation_ready _ _ H')|].
  split; [exact (Operation_times_ready _ _ _ H)|].
  destruct (facade_ready_inv _ _ H) as (a & p1 & p2 & -> & Hf & H1 & H2).
  destruct (facade_ready_inv _ _ H') as (a' & p1' & p2' & -> & Hf' & H1' & H2').
  do 4 eexists. exists p1, p2, p1', p2'.
  split; [exact (get_subsystem1__live _ _ _ _ Hf)|].
  split; [exact (get_subsystem2__live _ _ _ _ Hf)|].
  split; [exact (get_subsystem1__live _ _ _ _ Hf')|].
  split; [exact (get_subsystem2__live _ _ _ _ Hf')|].
  split; [exact (Subsystem1_Operation1_live _ _ H1)|].
  split; [exact (Subsystem1_Operation1_live _ _ H1')|].
  split; [exact (Subsystem1_OperationN_live _ _ H1)|].
  split; [exact (Subsystem1_OperationN_live _ _ H1')|].
  split; [exact (Subsystem2_Operation1_live _ _ H2)|].
  split; [exact (Subsystem2_Operation1_live _ _ H2')|].
  split; [exact (Subsystem2_OperationZ_live _ _ H2)|].
  exact (Subsystem2_OperationZ_live _ _ H2').
Qed.

(** * The members of a facade during its lifetime *)

Section FacadeMembers.
(** A facade object [F] sits at address [a]. *)
Variables (a : positive) (F : Facade).

Local Abbreviation kept := (keeps a F).

Lemma keeps_ret {A : Type} (x : A) : kept (ret x).
Proof. intros st r st' H [= _ <-]. exact H. Qed.

Lemma keeps_bind {A B : Type} (m : M A) (k : A -> M B) :
  kept m -> (forall x, kept (k x)) -> kept (bind m k).
Proof.
  intros Hm Hk st r st' H (x & st1 & E1 & E2)%bind_Some.
  exact (Hk x _ _ _ (Hm _ _ _ H E1) E2).
Qed.

Lemma keeps_alloc o : kept (alloc o).
Proof.
  intros st r st' H. destruct (alloc_spec o st) as (x & Hx & ->).
  intros [= _ <-]. simpl. rewrite lookup_insert_ne by congruence. exact H.
Qed.

Lemma keeps_dealloc x : x ≠ a -> kept (dealloc x).
Proof.
  intros N st r st' H. unfold dealloc. destruct (heap st !! x); [|discriminate].
  intros [= _ <-]. simpl. by rewrite lookup_delete_ne by auto.
Qed.

Lemma keeps_store x o : x ≠ a -> kept (store (Addr x) o).
Proof.
  intros N st r st' H. unfold store. destruct (heap st !! x); [|discriminate].
  intros [= _ <-]. simpl. by rewrite lookup_insert_ne by auto.
Qed.

Lemma keeps_cout_write s : kept (cout_write s).
Proof. intros st r st' H [= _ <-]. exact H. Qed.

Lemma keeps_new_Subsystem1 : kept new_Subsystem1.
Proof. apply keeps_bind; [apply keeps_alloc|intros; apply keeps_ret]. Qed.

Lemma keeps_new_Subsystem2 : kept new_Subsystem2.
Proof. apply keeps_bind; [apply keeps_alloc|intros; apply keeps_ret]. Qed.

Lemma keeps_new_Facade p1 p2 : kept (new_Facade p1 p2).
Proof.
  intros st r st' H E. apply new_Facade_frame in E as [Hs _].
  exact (lookup_weaken _ _ _ _ H Hs).
Qed.

Lemma keeps_Facade_Operation p : kept (Facade_Operation p).
Proof. intros st r st' H [-> _]%Facade_Operation_frame. exact H. Qed.

Lemma keeps_ClientCode p : kept (ClientCode p).
Proof.
  apply keeps_bind; [apply keeps_Facade_Operation|intros; apply keeps_cout_write].
Qed.

Lemma keeps_delete_Subsystem1 p : kept (delete_Subsystem1 p).
Proof.
  destruct p as [|x]; [apply keeps_ret|].
  intros st r st' H (s & st1 & Hd & E)%bind_Some.
  apply deref_Subsystem1_inv in Hd as (-> & (x' & s' & [= <-] & Hx)%is_Subsystem1_inv).
  apply (keeps_dealloc x) in E; [exact E|congruence|exact H].
Qed.

Lemma keeps_delete_Subsystem2 p : kept (delete_Subsystem2 p).
Proof.
  destruct p as [|x]; [apply keeps_ret|].
  intros st r st' H (s & st1 & Hd & E)%bind_Some.
  apply deref_Subsystem2_inv in Hd as (-> & (x' & s' & [= <-] & Hx)%is_Subsystem2_inv).
  apply (keeps_dealloc x) in E; [exact E|congruence|exact H].
Qed.

Lemma keeps_get_subsystem1_ p : kept (get_subsystem1_ p).
Proof. intros st r st' H (-> & _)%get_subsystem1__inv. exact H. Qed.

Lemma keeps_get_subsystem2_ p : kept (get_subsystem2_ p).
Proof. intros st r st' H (-> & _)%get_subsystem2__inv. exact H. Qed.

Lemma keeps_Facade_dtor p : kept (Facade_dtor p).
Proof.
  apply keeps_bind; [apply keeps_get_subsystem1_|intros p1].
  apply keeps_bind; [apply keeps_delete_Subsystem1|intros _].
  apply keeps_bind; [apply keeps_get_subsystem2_|intros p2].
  apply keeps_delete_Subsystem2.
Qed.

Lemma keeps_delete_Facade p : p ≠ Addr a -> kept (delete_Facade p).
Proof.
  destruct p as [|x]; [intros; apply keeps_ret|]. intros N.
  apply keeps_bind; [apply keeps_Facade_dtor|intros _].
  apply keeps_dealloc. congruence.
Qed.

Lemma keeps_Subsystem1_Operation1 p : kept (Subsystem1_Operation1 p).
Proof. intros st r st' H (-> & _)%Subsystem1_Operation1_inv. exact H. Qed.

Lemma keeps_Subsystem1_OperationN p : kept (Subsystem1_OperationN p).
Proof. intros st r st' H (-> & _)%Subsystem1_OperationN_inv. exact H. Qed.

Lemma keeps_Subsystem2_Operation1 p : kept (Subsystem2_Operation1 p).
Proof. intros st r st' H (-> & _)%Subsystem2_Operation1_inv. exact H. Qed.

Lemma keeps_Subsystem2_OperationZ p : kept (Subsystem2_OperationZ p).
Proof. intros st r st' H (-> & _)%Subsystem2_OperationZ_inv. exact H. Qed.

Lemma keeps_exec c : c ≠ CallDeleteFacade (Addr a) -> kept (exec c).
Proof.
  intros N. destruct c; simpl;
    try (apply keeps_bind; [|intros; apply keeps_ret]).
  - apply keeps_new_Subsystem1.
  - apply keeps_new_Subsystem2.
  - apply keeps_new_Facade.
  - apply keeps_Subsystem1_Operation1.
  - apply keeps_Subsystem1_OperationN.
  - apply keeps_Subsystem2_Operation1.
  - apply keeps_Subsystem2_OperationZ.
  - apply keeps_Facade_Operation.
  - apply keeps_ClientCode.
  - apply keeps_cout_write.
  - apply keeps_delete_Subsystem1.
  - apply keeps_delete_Subsystem2.
  - apply keeps_delete_Facade. congruence.
Qed.

Lemma keeps_exec_all cs :
  never_deletes (Addr a) cs = true -> kept (exec_all cs).
Proof.
  induction cs as [|c cs IH]; simpl; [intros; apply keeps_ret|].
  intros [Hc Hcs]%andb_prop.
  apply keeps_bind; [|intros; exact (IH Hcs)].
  apply keeps_exec. apply negb_true_iff, bool_decide_eq_false in Hc. exact Hc.
Qed.
End FacadeMembers.

(** C5: however a facade is constructed, both of its members are non-null
    as soon as the constructor has run, and they keep those very values for
    as long as the facade lives: no client program that creates objects,
    calls operations, prints, or deletes other objects can make either
    member null or make it point elsewhere. *)
Theorem facade_members_stay_non_null
    (st : state) (p1 p2 this : ptr) (st1 : state) (cs : list call) (st2 : state) :
  new_Facade p1 p2 st = Some (this, st1) ->
  never_deletes this cs = true ->
  exec_all cs st1 = Some (tt, st2) ->
  exists a a1 a2,
    this = Addr a /\
    get_subsystem1_ this st1 = Some (Addr a1, st1) /\
    get_subsystem2_ this st1 = Some (Addr a2, st1) /\
    get_subsystem1_ this st2 = Some (Addr a1, st2) /\
    get_subsystem2_ this st2 = Some (Addr a2, st2) /\
    heap st2 !! a = heap st1 !! a.
Proof.
  intros E Hcs Hrun.
  destruct (new_Facade_spec st p1 p2)
    as (a & v1 & v2 & h1 & h2 & t1 & t2 & st1' & E' & Ha & Hc & Hp1 & Hp2 & Hh2a & Hh & Ht).
  rewrite E in E'. injection E' as -> <-.
  assert (exists a1, v1 = Addr a1) as [a1 ->].
  { destruct p1 as [|x]; [destruct Hp1 as (a1 & -> & _); eauto|].
    destruct Hp1 as (-> & _). eauto. }
  assert (exists a2, v2 = Addr a2) as [a2 ->].
  { destruct p2 as [|y]; [destruct Hp2 as (a2 & -> & _); eauto|].
    destruct Hp2 as (-> & _). eauto. }
  assert (heap st1 !! a = Some (ObjFacade {| subsystem1_ := Some (Addr a1);
                                             subsystem2_ := Some (Addr a2) |})) as H1
    by (rewrite Hh; apply lookup_insert_eq).
  pose proof (keeps_exec_all a _ cs Hcs st1 tt st2 H1 Hrun) as H2.
  exists a, a1, a2. split; [reflexivity|].
  split; [exact (get_subsystem1__live _ _ _ _ H1)|].
  split; [exact (get_subsystem2__live _ _ _ _ H1)|].
  split; [exact (get_subsystem1__live _ _ _ _ H2)|].
  split; [exact (get_subsystem2__live _ _ _ _ H2)|].
  by rewrite H1, H2.
Qed.

Lemma facade_members_stay_non_null_witness :
  exists st2,
    new_Facade (Addr 1) nullptr client_state = Some (Addr 3, mixed_state) /\
    never_deletes (Addr 3) mixed_calls = true /\
    exec_all mixed_calls mixed_state = Some (tt, st2) /\
    get_subsystem1_ (Addr 3) st2 = Some (Addr 1, st2) /\
    get_subsystem2_ (Addr 3) st2 = Some (Addr 4, st2).
Proof.
  eexists.
  split; [vm_compute; reflexivity|]. split; [reflexivity|].
  split; [vm_compute; reflexivity|].
  destruct (facade_members_stay_non_null client_state (Addr 1) nullptr (Addr 3)
              mixed_state mixed_calls _
              ltac:(vm_compute; reflexivity) ltac:(reflexivity)
              ltac:(vm_compute; reflexivity))
    as (a & a1 & a2 & [= <-] & G1 & G2 & G3 & G4 & _).
  vm_compute in G1. injection G1 as <-.
  vm_compute in G2. injection G2 as <-.
  split; [exact G3|exact G4].
Defined.

Lemma operations_pure_total_deterministic_witness :
  facade_ready demo_state (Addr 3) = true /\
  facade_ready mixed_state (Addr 3) = true /\
  exists s,
    Facade_Operation (Addr 3) demo_state = Some (s, demo_state) /\
    Facade_Operation (Addr 3) mixed_state = Some (s, mixed_state) /\
    Operation_times 2 (Addr 3) demo_state = Some ([s; s], demo_state).
Proof.
  split; [reflexivity|]. split; [reflexivity|].
  destruct (operations_pure_total_deterministic demo_state mixed_state (Addr 3) (Addr 3) 2
              ltac:(reflexivity) ltac:(reflexivity))
    as (s & G1 & G2 & G3 & _).
  exists s. auto.
Defined.

(** * The driver *)

Lemma append_assoc (s1 s2 s3 : string) : (s1 +:+ s2) +:+ s3 = s1 +:+ s2 +:+ s3.
Proof.
  induction s1 as [|c s1 IH]; [reflexivity|].
  change (String c ((s1 +:+ s2) +:+ s3) = String c (s1 +:+ s2 +:+ s3)).
  f_equal. exact IH.
Qed.

Lemma ClientCode_ready st facade :
  facade_ready st facade = true ->
  ClientCode facade st =
    Some (tt, {| heap := heap st; cout := cout st +:+ Operation_text; trace := trace st |}).
Proof.
  intros H. unfold ClientCode. step (Facade_Operation_ready _ _ H). reflexivity.
Qed.

(** C9: from any starting state [main] runs to completion and returns 0.
    It first builds a facade from two subsystems the client created itself
    (no subsystem is created by that constructor call), prints that
    facade's Operation() result and a line break, then builds a facade with
    no explicit instances (which creates its own two subsystems) and prints
    its Operation() result. *)
Theorem main_runs_both_configurations (st : state) :
  exists s1 s2 f f2 b1 b2 st',
    main st = Some (0%Z, st') /\
    cout st' = cout st +:+ Operation_text +:+ newline +:+ Operation_text /\
    trace st' = trace st ++ [EvNew s1; EvNew s2; EvNew f;
                             EvNew f2; EvNew b1; EvNew b2;
                             EvDelete s1; EvDelete s2; EvDelete f].
Proof.
  unfold main.
  destruct (new_Subsystem1_spec st) as (s1 & Hs1 & E1). step E1. clear E1.
  set (sta := {| heap := _; cout := _; trace := _ |}).
  destruct (new_Subsystem2_spec sta) as (s2 & Hs2 & E2). step E2. clear E2.
  set (stb := {| heap := _; cout := _; trace := _ |}).
  assert (is_Subsystem1 stb (Addr s1) = true) as R1.
  { unfold sta in Hs2. cbn [heap] in Hs2.
    apply lookup_insert_None in Hs2 as [_ N]. unfold is_Subsystem1. simpl.
    rewrite lookup_insert_ne by auto. by rewrite lookup_insert_eq. }
  assert (is_Subsystem2 stb (Addr s2) = true) as R2.
  { unfold is_Subsystem2. simpl. by rewrite lookup_insert_eq. }
  destruct (new_Facade_spec stb (Addr s1) (Addr s2))
    as (f & v1 & v2 & h1 & h2 & t1 & t2 & stc & E3 & Hf & Hc3 & Hp1 & Hp2 & _ & Hh3 & Ht3).
  destruct Hp1 as (-> & -> & ->). destruct Hp2 as (-> & -> & ->).
  destruct (new_Facade_ready stb (Addr s1) (Addr s2) R1 R2) as (f' & stc' & E3' & R3).
  rewrite E3 in E3'. injection E3' as <- <-.
  step E3. step (ClientCode_ready _ _ R3).
  set (std := {| heap := heap stc; cout := _; trace := _ |}).
  unfold cout_endl at 1. unfold bind at 1, cout_write at 1.
  set (ste := {| heap := heap std; cout := _; trace := _ |}).
  destruct (new_Facade_spec ste nullptr nullptr)
    as (f2 & w1 & w2 & k1 & k2 & u1 & u2 & stf & E4 & Hf2 & Hc4 & Hq1 & Hq2 & _ & Hh4 & Ht4).
  destruct Hq1 as (b1 & -> & _ & _ & -> & ->).
  destruct Hq2 as (b2 & -> & _ & _ & -> & ->).
  destruct (new_Facade_ready ste nullptr nullptr) as (f2' & stf' & E4' & R4);
    [reflexivity..|].
  rewrite E4 in E4'. injection E4' as <- <-.
  destruct (new_Facade_frame _ _ _ _ _ E4) as [Hsub _].
  assert (facade_ready stf (Addr f) = true) as R5
    by (apply (facade_ready_weaken ste stf (Addr f) Hsub); exact R3).
  step E4. step (ClientCode_ready _ _ R4).
  set (stg := {| heap := heap stf; cout := _; trace := _ |}).
  destruct (delete_Facade_ready stg (Addr f) R5)
    as (f' & a1 & a2 & [= <-] & Hfa & _ & _ & _ & _ & _ & Ed).
  assert (heap stg !! f = Some (ObjFacade {| subsystem1_ := Some (Addr s1);
                                             subsystem2_ := Some (Addr s2) |})) as Hfa'.
  { apply (lookup_weaken (heap ste)); [|exact Hsub].
    simpl. rewrite Hh3. apply lookup_insert_eq. }
  rewrite Hfa in Hfa'. injection Hfa' as -> ->.
  step Ed.
  exists s1, s2, f, f2, b1, b2. eexists. split; [reflexivity|].
  split.
  - subst stg. cbn [cout]. rewrite Hc4. subst ste std. cbn [cout]. rewrite Hc3.
    subst stb sta. cbn [cout]. by rewrite !append_assoc.
  - subst stg. cbn [trace]. rewrite Ht4. subst ste std. cbn [trace]. rewrite Ht3.
    subst stb sta. cbn [trace].
    rewrite <- !app_assoc. reflexivity.
Qed.

(** The run of [main] from the empty initial state, computed. *)
Example main_from_initial_state :
  exists st',
    main initial_state = Some (0%Z, st') /\
    cout st' = Operation_text +:+ newline +:+ Operation_text /\
    trace st' = [EvNew 1; EvNew 2; EvNew 3; EvNew 4; EvNew 5; EvNew 6;
                 EvDelete 1; EvDelete 2; EvDelete 3].
Proof. eexists. split; [vm_compute; reflexivity|]. split; reflexivity. Qed.

(** * Further properties of the code *)

Ltac map_cases :=
  apply map_eq; intros ?i;
  repeat (rewrite lookup_insert || rewrite lookup_delete);
  repeat case_decide; simplify_eq; try done; try congruence.

Lemma Facade_Operation_not_ready st this :
  facade_ready st this = false -> Facade_Operation this st = None.
Proof.
  intros H. destruct (Facade_Operation this st) as [[s st']|] eqn:E; [|reflexivity].
  apply Facade_Operation_frame in E as [_ E]. congruence.
Qed.

(** X1: Operation() is defined exactly on ready facades.  On a facade whose
    members point to live subsystems it returns the expected text in an
    unchanged state; on anything else (a null or dangling facade pointer, a
    member pointing to a released or wrong-class object) the call is
    undefined. *)
Theorem Operation_defined_iff_ready (st : state) (this : ptr) :
  Facade_Operation this st =
    if facade_ready st this then Some (Operation_text, st) else None.
Proof.
  destruct (facade_ready st this) eqn:H.
  - exact (Facade_Operation_ready _ _ H).
  - exact (Facade_Operation_not_ready _ _ H).
Qed.

(** ClientCode prints exactly the text of Operation() and touches
    nothing else when its facade is ready, and is undefined otherwise. *)
Theorem ClientCode_defined_iff_ready (st : state) (facade : ptr) :
  ClientCode facade st =
    if facade_ready st facade
    then Some (tt, {| heap := heap st;
                      cout := cout st +:+ Operation_text;
                      trace := trace st |})
    else None.
Proof.
  destruct (facade_ready st facade) eqn:H.
  - exact (ClientCode_ready _ _ H).
  - unfold ClientCode, bind. by rewrite (Facade_Operation_not_ready _ _ H).
Qed.

(** X2: [main] never deletes its second facade.  From any starting state it
    ends with exactly three objects more on the free store than it started
    with: the second facade and the two subsystems that facade created, at
    addresses that were free at the start; everything [main] built for the
    first facade is gone, and the leaked facade is still ready. *)
Theorem main_leaks_second_facade (st : state) :
  exists f2 b1 b2 st',
    main st = Some (0%Z, st') /\
    heap st !! f2 = None /\ heap st !! b1 = None /\ heap st !! b2 = None /\
    NoDup [f2; b1; b2] /\
    heap st' =
      <[f2 := ObjFacade {| subsystem1_ := Some (Addr b1); subsystem2_ := Some (Addr b2) |}]>
        (<[b2 := ObjSubsystem2 mkSubsystem2]>
           (<[b1 := ObjSubsystem1 mkSubsystem1]> (heap st))) /\
    facade_ready st' (Addr f2) = true.
Proof.
  unfold main.
  destruct (new_Subsystem1_spec st) as (s1 & Hs1 & E1). step E1. clear E1.
  set (sta := {| heap := _; cout := _; trace := _ |}).
  destruct (new_Subsystem2_spec sta) as (s2 & Hs2 & E2). step E2. clear E2.
  set (stb := {| heap := _; cout := _; trace := _ |}).
  unfold sta in Hs2. cbn [heap] in Hs2.
  apply lookup_insert_None in Hs2 as [Hs2 N12].
  assert (is_Subsystem1 stb (Addr s1) = true) as R1.
  { unfold is_Subsystem1. simpl. rewrite lookup_insert_ne by auto.
    by rewrite lookup_insert_eq. }
  assert (is_Subsystem2 stb (Addr s2) = true) as R2.
  { unfold is_Subsystem2. simpl. by rewrite lookup_insert_eq. }
  destruct (new_Facade_spec stb (Addr s1) (Addr s2))
    as (f & v1 & v2 & h1 & h2 & t1 & t2 & stc & E3 & Hf & Hc3 & Hp1 & Hp2 & _ & Hh3 & Ht3).
  destruct Hp1 as (-> & -> & ->). destruct Hp2 as (-> & -> & ->).
  destruct (new_Facade_ready stb (Addr s1) (Addr s2) R1 R2) as (f' & stc' & E3' & R3).
  rewrite E3 in E3'. injection E3' as <- <-.
  step E3. step (ClientCode_ready _ _ R3).
  set (std := {| heap := heap stc; cout := _; trace := _ |}).
  unfold cout_endl at 1. unfold bind at 1, cout_write at 1.
  set (ste := {| heap := heap std; cout := _; trace := _ |}).
  destruct (new_Facade_spec ste nullptr nullptr)
    as (f2 & w1 & w2 & k1 & k2 & u1 & u2 & stf & E4 & Hf2 & Hc4 & Hq1 & Hq2 & _ & Hh4 & Ht4).
  destruct Hq1 as (b1 & -> & Hb1 & Nb1 & -> & ->).
  destruct Hq2 as (b2 & -> & Hb2 & Nb2 & -> & ->).
  destruct (new_Facade_ready ste nullptr nullptr) as (f2' & stf' & E4' & R4);
    [reflexivity..|].
  rewrite E4 in E4'. injection E4' as <- <-.
  destruct (new_Facade_frame _ _ _ _ _ E4) as [Hsub _].
  assert (facade_ready stf (Addr f) = true) as R5
    by (apply (facade_ready_weaken ste stf (Addr f) Hsub); exact R3).
  step E4. step (ClientCode_ready _ _ R4).
  set (stg := {| heap := heap stf; cout := _; trace := _ |}).
  destruct (delete_Facade_ready stg (Addr f) R5)
    as (f' & a1 & a2 & [= <-] & Hfa & _ & _ & _ & _ & _ & Ed).
  assert (heap stg !! f = Some (ObjFacade {| subsystem1_ := Some (Addr s1);
                                             subsystem2_ := Some (Addr s2) |})) as Hfa'.
  { apply (lookup_weaken (heap ste)); [|exact Hsub].
    simpl. rewrite Hh3. apply lookup_insert_eq. }
  rewrite Hfa in Hfa'. injection Hfa' as -> ->.
  step Ed. clear Ed.
  (* where the six addresses lie *)
  change (heap stb) with (<[s2 := ObjSubsystem2 mkSubsystem2]>
                            (<[s1 := ObjSubsystem1 mkSubsystem1]> (heap st))) in Hf, Hh3.
  apply lookup_insert_None in Hf as [Hf Nf2].
  apply lookup_insert_None in Hf as [Hf Nf1].
  change (heap ste) with (heap stc) in Hf2, Hb1, Hb2, Hh4.
  rewrite Hh3 in Hf2, Hb1, Hb2, Hh4.
  apply lookup_insert_None in Hf2 as [Hf2 G1].
  apply lookup_insert_None in Hf2 as [Hf2 G2].
  apply lookup_insert_None in Hf2 as [Hf2 G3].
  apply lookup_insert_None in Hb1 as [Hb1 G4].
  apply lookup_insert_None in Hb1 as [Hb1 G5].
  apply lookup_insert_None in Hb1 as [Hb1 G6].
  apply lookup_insert_None in Hb2 as [Hb2 G7].
  apply lookup_insert_None in Hb2 as [Hb2 G8].
  apply lookup_insert_None in Hb2 as [Hb2 G9].
  apply lookup_insert_None in Hb2 as [Hb2 G10].
  assert (delete f (delete s2 (delete s1 (heap stf))) =
          <[f2 := ObjFacade {| subsystem1_ := Some (Addr b1); subsystem2_ := Some (Addr b2) |}]>
            (<[b2 := ObjSubsystem2 mkSubsystem2]>
               (<[b1 := ObjSubsystem1 mkSubsystem1]> (heap st)))) as Hfinal.
  { rewrite Hh4. map_cases. }
  exists f2, b1, b2. eexists. split; [reflexivity|].
  do 3 (split; [assumption|]).
  split.
  { repeat (apply NoDup_cons; split); try apply NoDup_nil_2;
      rewrite ?elem_of_cons, ?elem_of_nil; intuition congruence. }
  split; [exact Hfinal|].
  apply facade_ready_intro with (a1 := b1) (a2 := b2)
                                (s1 := mkSubsystem1) (s2 := mkSubsystem2);
    cbn [heap]; subst stg; cbn [heap]; rewrite Hfinal.
  - apply lookup_insert_eq.
  - rewrite !lookup_insert_ne by auto. apply lookup_insert_eq.
  - rewrite lookup_insert_ne by auto. apply lookup_insert_eq.
Qed.

(** X3: the destructor releases whatever the two members point to, without
    regard to where the objects came from.  For every mix of supplied and
    omitted constructor arguments, building a facade and deleting it leaves
    the free store as it was before, minus the instances that were
    supplied: created instances are cleaned up, supplied ones are taken
    away from the client. *)
Theorem teardown_releases_whatever_members_hold (st : state) (p1 p2 : ptr) :
  arg1_ok st p1 = true ->
  arg2_ok st p2 = true ->
  exists a st1 st2,
    new_Facade p1 p2 st = Some (Addr a, st1) /\
    delete_Facade (Addr a) st1 = Some (tt, st2) /\
    heap st2 = without p2 (without p1 (heap st)) /\
    cout st2 = cout st.
Proof.
  intros A1 A2.
  destruct (new_Facade_spec st p1 p2)
    as (a & v1 & v2 & h1 & h2 & t1 & t2 & st1 & E & Ha & Hc & Hp1 & Hp2 & Hh2a & Hh & Ht).
  destruct (new_Facade_ready st p1 p2 A1 A2) as (a' & st1' & E' & R).
  rewrite E in E'. injection E' as <- <-.
  destruct (delete_Facade_ready st1 (Addr a) R)
    as (a' & a1 & a2 & [= <-] & Hfa & _ & _ & N12 & N1 & N2 & Ed).
  assert (heap st1 !! a = Some (ObjFacade {| subsystem1_ := Some v1;
                                             subsystem2_ := Some v2 |})) as Hfa'
    by (rewrite Hh; apply lookup_insert_eq).
  rewrite Hfa in Hfa'. injection Hfa' as <- <-.
  exists a, st1. eexists. split; [exact E|]. split; [exact Ed|].
  split; [|exact Hc]. cbn [heap]. rewrite Hh.
  destruct p1 as [|x1], p2 as [|x2]; cbn [without].
  - destruct Hp1 as (b1 & [= <-] & Hn1 & _ & -> & _).
    destruct Hp2 as (b2 & [= <-] & Hn2 & _ & -> & _).
    apply lookup_insert_None in Hn2 as [Hn2 _]. map_cases.
  - destruct Hp1 as (b1 & [= <-] & Hn1 & _ & -> & _).
    destruct Hp2 as ([= <-] & -> & _). map_cases.
  - destruct Hp1 as ([= <-] & -> & _).
    destruct Hp2 as (b2 & [= <-] & Hn2 & _ & -> & _). map_cases.
  - destruct Hp1 as ([= <-] & -> & _).
    destruct Hp2 as ([= <-] & -> & _). map_cases.
Qed.

Lemma teardown_releases_whatever_members_hold_witness :
  arg1_ok client_state (Addr 1) = true /\
  arg2_ok client_state nullptr = true /\
  exists a st1 st2,
    new_Facade (Addr 1) nullptr client_state = Some (Addr a, st1) /\
    delete_Facade (Addr a) st1 = Some (tt, st2) /\
    heap st2 = delete 1%positive (heap client_state).
Proof.
  split; [reflexivity|]. split; [reflexivity|].
  destruct (teardown_releases_whatever_members_hold client_state (Addr 1) nullptr
              ltac:(reflexivity) ltac:(reflexivity))
    as (a & st1 & st2 & E & Ed & Hh & _).
  exists a, st1, st2. auto.
Defined.

Lemma delete_Subsystem1_inv p st r st' :
  delete_Subsystem1 p st = Some (r, st') ->
  arg1_ok st p = true /\ heap st' = without p (heap st) /\ cout st' = cout st.
Proof.
  destruct p as [|x]; simpl; [intros [= _ <-]; auto|].
  intros (s & st1 & Hd & E)%bind_Some.
  apply deref_Subsystem1_inv in Hd as (-> & Hx). split; [exact Hx|].
  unfold dealloc in E. destruct (heap st !! x); [|discriminate].
  injection E as _ <-. auto.
Qed.

Lemma delete_Subsystem2_inv p st r st' :
  delete_Subsystem2 p st = Some (r, st') ->
  arg2_ok st p = true /\ heap st' = without p (heap st) /\ cout st' = cout st.
Proof.
  destruct p as [|x]; simpl; [intros [= _ <-]; auto|].
  intros (s & st1 & Hd & E)%bind_Some.
  apply deref_Subsystem2_inv in Hd as (-> & Hx). split; [exact Hx|].
  unfold dealloc in E. destruct (heap st !! x); [|discriminate].
  injection E as _ <-. auto.
Qed.

Lemma is_Subsystem2_without st st' p q :
  heap st' = without q (heap st) ->
  is_Subsystem2 st' p = true -> is_Subsystem2 st p = true.
Proof.
  intros Hh. apply is_Subsystem2_weaken. rewrite Hh.
  destruct q; simpl; [reflexivity|apply delete_subseteq].
Qed.

(** What a completed [delete] of a facade tells about the state it ran in. *)
Lemma delete_Facade_inv a st r st' :
  delete_Facade (Addr a) st = Some (r, st') ->
  exists p1 p2,
    heap st !! a = Some (ObjFacade {| subsystem1_ := Some p1; subsystem2_ := Some p2 |}) /\
    arg1_ok st p1 = true /\ arg2_ok st p2 = true /\ cout st' = cout st.
Proof.
  unfold delete_Facade, Facade_dtor.
  intros (u & st4 & Hd & Hde)%bind_Some.
  apply bind_Some in Hd as (p1 & st1 & Hg1 & Hd).
  apply get_subsystem1__inv in Hg1 as (-> & a' & [m1 m2] & [= <-] & Hf & Hm1).
  simpl in Hm1. subst m1.
  apply bind_Some in Hd as (u1 & st2 & Hd1 & Hd).
  pose proof (keeps_delete_Subsystem1 a _ p1 _ _ _ Hf Hd1) as Hf2.
  apply delete_Subsystem1_inv in Hd1 as (A1 & Hh2 & Hc2).
  apply bind_Some in Hd as (p2 & st3 & Hg2 & Hd2).
  apply get_subsystem2__inv in Hg2 as (-> & a' & [m1' m2'] & [= <-] & Hf2' & Hm2).
  rewrite Hf2 in Hf2'. injection Hf2' as <- <-. simpl in Hm2. subst m2.
  apply delete_Subsystem2_inv in Hd2 as (A2 & Hh4 & Hc4).
  exists p1, p2. split; [exact Hf|]. split; [exact A1|]. split.
  - unfold arg2_ok in *. destruct (to_bool p2); [|reflexivity].
    exact (is_Subsystem2_without _ _ _ _ Hh2 A2).
  - unfold dealloc in Hde. destruct (heap st4 !! a); [|discriminate].
    injection Hde as _ <-. simpl. congruence.
Qed.

Lemma delete_Facade_not_ready st a a1 a2 :
  heap st !! a = Some (ObjFacade {| subsystem1_ := Some (Addr a1);
                                    subsystem2_ := Some (Addr a2) |}) ->
  facade_ready st (Addr a) = false ->
  delete_Facade (Addr a) st = None.
Proof.
  intros Hf Hr. destruct (delete_Facade (Addr a) st) as [[r st']|] eqn:E; [|reflexivity].
  apply delete_Facade_inv in E as (p1 & p2 & Hf' & A1 & A2 & _).
  rewrite Hf in Hf'. injection Hf' as <- <-.
  unfold facade_ready in Hr. rewrite Hf in Hr.
  unfold arg1_ok, arg2_ok in *. simpl in A1, A2, Hr. rewrite A1, A2 in Hr. discriminate.
Qed.

(** X4: the constructor does not check a non-null argument.  If an
    argument is non-null but does not point to a live subsystem of its
    class (a dangling pointer, say), construction still succeeds and
    stores it, but the resulting facade is unusable: both Operation() and
    its deletion are undefined. *)
Theorem constructor_does_not_validate (st : state) (p1 p2 : ptr) :
  arg1_ok st p1 && arg2_ok st p2 = false ->
  exists a v1 v2 st1,
    new_Facade p1 p2 st = Some (Addr a, st1) /\
    get_subsystem1_ (Addr a) st1 = Some (v1, st1) /\
    get_subsystem2_ (Addr a) st1 = Some (v2, st1) /\
    (if to_bool p1 then v1 = p1 else True) /\
    (if to_bool p2 then v2 = p2 else True) /\
    facade_ready st1 (Addr a) = false /\
    Facade_Operation (Addr a) st1 = None /\
    delete_Facade (Addr a) st1 = None.
Proof.
  intros Hbad.
  destruct (new_Facade_spec st p1 p2)
    as (a & v1 & v2 & h1 & h2 & t1 & t2 & st1 & E & Ha & Hc & Hp1 & Hp2 & Hh2a & Hh & Ht).
  assert (heap st1 !! a = Some (ObjFacade {| subsystem1_ := Some v1;
                                             subsystem2_ := Some v2 |})) as Hfa
    by (rewrite Hh; apply lookup_insert_eq).
  assert (is_Subsystem1 st1 v1 && is_Subsystem2 st1 v2 = false) as Hnot.
  { apply andb_false_iff in Hbad as [B|B]; apply andb_false_iff; [left|right].
    - unfold arg1_ok in B. destruct p1 as [|x]; [discriminate|]. cbn [to_bool] in B.
      destruct Hp1 as (-> & -> & _). unfold is_Subsystem1 in *. rewrite Hh.
      rewrite lookup_insert. case_decide; [reflexivity|].
      destruct p2 as [|y].
      + destruct Hp2 as (a2 & _ & _ & _ & -> & _).
        rewrite lookup_insert. case_decide; [reflexivity|exact B].
      + destruct Hp2 as (_ & -> & _). exact B.
    - unfold arg2_ok in B. destruct p2 as [|y]; [discriminate|]. cbn [to_bool] in B.
      destruct Hp2 as (-> & -> & _). unfold is_Subsystem2 in *. rewrite Hh.
      rewrite lookup_insert. case_decide; [reflexivity|].
      destruct p1 as [|x].
      + destruct Hp1 as (a1 & _ & _ & _ & -> & _).
        rewrite lookup_insert. case_decide; [reflexivity|exact B].
      + destruct Hp1 as (_ & -> & _). exact B. }
  assert (facade_ready st1 (Addr a) = false) as Hr
    by (unfold facade_ready; rewrite Hfa; exact Hnot).
  assert (exists a1, v1 = Addr a1) as [a1 Hv1].
  { destruct p1 as [|x]; [destruct Hp1 as (a1 & -> & _); eauto|].
    destruct Hp1 as (-> & _). eauto. }
  assert (exists a2, v2 = Addr a2) as [a2 Hv2].
  { destruct p2 as [|y]; [destruct Hp2 as (a2 & -> & _); eauto|].
    destruct Hp2 as (-> & _). eauto. }
  exists a, v1, v2, st1. split; [exact E|].
  split; [exact (get_subsystem1__live _ _ _ _ Hfa)|].
  split; [exact (get_subsystem2__live _ _ _ _ Hfa)|].
  split; [destruct p1; [exact I|by destruct Hp1]|].
  split; [destruct p2; [exact I|by destruct Hp2]|].
  split; [exact Hr|].
  split; [exact (Facade_Operation_not_ready _ _ Hr)|].
  subst v1 v2. exact (delete_Facade_not_ready _ _ _ _ Hfa Hr).
Qed.

Lemma constructor_does_not_validate_witness :
  arg1_ok initial_state (Addr 7) && arg2_ok initial_state nullptr = false /\
  exists a st1,
    new_Facade (Addr 7) nullptr initial_state = Some (Addr a, st1) /\
    get_subsystem1_ (Addr a) st1 = Some (Addr 7, st1) /\
    Facade_Operation (Addr a) st1 = None.
Proof.
  split; [reflexivity|].
  destruct (constructor_does_not_validate initial_state (Addr 7) nullptr ltac:(reflexivity))
    as (a & v1 & v2 & st1 & E & G1 & _ & Hv & _ & _ & Ho & _).
  simpl in Hv. subst v1. exists a, st1. auto.
Defined.

(** X5: deleting a facade breaks exactly the facades that share a
    subsystem with it.  For two ready facades [f] and [g], after
    [delete f] the facade [g] is still ready and works as before if the
    two have no subsystem in common; if they share one (two facades built
    from the same supplied instance, or [g] being [f] itself), [g] is left
    with a dangling member: Operation() on it and its own deletion, a
    second release, are undefined. *)
Theorem teardown_breaks_exactly_sharing_facades (st : state) (f g : ptr) :
  facade_ready st f = true ->
  facade_ready st g = true ->
  exists st',
    delete_Facade f st = Some (tt, st') /\
    if shares_subsystem st f g
    then facade_ready st' g = false /\
         Facade_Operation g st' = None /\
         delete_Facade g st' = None
    else facade_ready st' g = true /\
         Facade_Operation g st' = Some (Operation_text, st').
Proof.
  intros Rf Rg.
  destruct (delete_Facade_ready st f Rf)
    as (a & a1 & a2 & -> & Hfa & H1 & H2 & N12 & N1 & N2 & Ed).
  apply is_Subsystem1_inv in H1 as (? & s1 & [= <-] & Ha1).
  apply is_Subsystem2_inv in H2 as (? & s2 & [= <-] & Ha2).
  destruct (facade_ready_inv _ _ Rg) as (b & q1 & q2 & -> & Hgb & G1 & G2).
  apply is_Subsystem1_inv in G1 as (b1 & r1 & -> & Hb1).
  apply is_Subsystem2_inv in G2 as (b2 & r2 & -> & Hb2).
  eexists. split; [exact Ed|].
  set (st' := {| heap := _; cout := _; trace := _ |}).
  assert (forall x, heap st' !! x =
                    if decide (a = x) then None
                    else if decide (a2 = x) then None
                    else if decide (a1 = x) then None else heap st !! x) as L.
  { intros x. unfold st'. cbn [heap]. by rewrite !lookup_delete. }
  unfold shares_subsystem. rewrite Hfa, Hgb. cbn [subsystem1_ subsystem2_].
  assert (forall r, facade_ready st' (Addr b) = false ->
            r = delete_Facade (Addr b) st' -> r = None) as Hdel.
  { intros r Hr ->. destruct (delete_Facade (Addr b) st') as [[u st'']|] eqn:E; [|reflexivity].
    apply delete_Facade_inv in E as (p1 & p2 & Hf' & A1 & A2 & _).
    rewrite L in Hf'. repeat case_decide; try discriminate.
    rewrite Hgb in Hf'. injection Hf' as <- <-.
    unfold facade_ready in Hr. rewrite L in Hr. repeat case_decide; try congruence.
    rewrite Hgb in Hr. unfold arg1_ok, arg2_ok in *. cbn [to_bool] in A1, A2.
    rewrite A1, A2 in Hr. discriminate. }
  destruct (bool_decide (Some (Addr a1) = Some (Addr b1))
            || bool_decide (Some (Addr a2) = Some (Addr b2))) eqn:Sh.
  - assert (heap st' !! a1 = None) as F1
      by (rewrite L; repeat case_decide; congruence).
    assert (heap st' !! a2 = None) as F2
      by (rewrite L; repeat case_decide; congruence).
    assert (facade_ready st' (Addr b) = false) as Hr.
    { unfold facade_ready. rewrite L.
      destruct (decide (a = b)); [reflexivity|].
      destruct (decide (a2 = b)); [reflexivity|].
      destruct (decide (a1 = b)); [reflexivity|]. rewrite Hgb.
      apply orb_true_iff in Sh as [Sh|Sh]; apply bool_decide_eq_true in Sh;
        injection Sh as <-.
      - unfold is_Subsystem1. by rewrite F1.
      - unfold is_Subsystem2 at 1. rewrite F2. apply andb_false_r. }
    split; [exact Hr|]. split; [exact (Facade_Operation_not_ready _ _ Hr)|].
    exact (Hdel _ Hr eq_refl).
  - apply orb_false_iff in Sh as [Sh1 Sh2].
    apply bool_decide_eq_false in Sh1, Sh2.
    assert (facade_ready st' (Addr b) = true) as Hr.
    { assert (a ≠ b) as Nab by (intros ->; congruence).
      assert (forall x o, heap st !! x = Some o -> a ≠ x -> a2 ≠ x -> a1 ≠ x ->
                          heap st' !! x = Some o) as Keep.
      { intros x o Hx Nx N2x N1x. rewrite L.
        destruct (decide (a = x)); [done|]. destruct (decide (a2 = x)); [done|].
        destruct (decide (a1 = x)); [done|]. exact Hx. }
      apply facade_ready_intro with (a1 := b1) (a2 := b2) (s1 := r1) (s2 := r2);
        apply Keep; congruence. }
    split; [exact Hr|]. exact (Facade_Operation_ready _ _ Hr).
Qed.

Lemma teardown_breaks_exactly_sharing_facades_witness :
  (facade_ready shared_state (Addr 3) = true /\
   facade_ready shared_state (Addr 4) = true /\
   shares_subsystem shared_state (Addr 3) (Addr 4) = true /\
   exists st', delete_Facade (Addr 3) shared_state = Some (tt, st') /\
               delete_Facade (Addr 4) st' = None) /\
  (facade_ready two_facades_state (Addr 3) = true /\
   facade_ready two_facades_state (Addr 4) = true /\
   shares_subsystem two_facades_state (Addr 3) (Addr 4) = false /\
   exists st', delete_Facade (Addr 3) two_facades_state = Some (tt, st') /\
               Facade_Operation (Addr 4) st' = Some (Operation_text, st')).
Proof.
  split.
  - do 3 (split; [reflexivity|]).
    destruct (teardown_breaks_exactly_sharing_facades shared_state (Addr 3) (Addr 4)
                ltac:(reflexivity) ltac:(reflexivity)) as (st' & E & H).
    change (shares_subsystem shared_state (Addr 3) (Addr 4)) with true in H.
    exists st'. split; [exact E|]. apply H.
  - do 3 (split; [reflexivity|]).
    destruct (teardown_breaks_exactly_sharing_facades two_facades_state (Addr 3) (Addr 4)
                ltac:(reflexivity) ltac:(reflexivity)) as (st' & E & H).
    change (shares_subsystem two_facades_state (Addr 3) (Addr 4)) with false in H.
    exists st'. split; [exact E|]. apply H.
Defined.

Lemma append_nil_r (s : string) : s +:+ "" = s.
Proof.
  induction s as [|c s IH]; [reflexivity|].
  change (String c (s +:+ "") = String c s). f_equal. exact IH.
Qed.

Lemma writes_nothing {A : Type} (m : M A) :
  (forall st r st', m st = Some (r, st') -> cout st' = cout st) -> writes "" m.
Proof. intros H st r st' E. rewrite append_nil_r. exact (H _ _ _ E). Qed.

Lemma writes_bind {A B : Type} (o1 o2 : string) (m : M A) (k : A -> M B) :
  writes o1 m -> (forall x, writes o2 (k x)) -> writes (o1 +:+ o2) (bind m k).
Proof.
  intros Hm Hk st r st' (x & st1 & E1 & E2)%bind_Some.
  rewrite (Hk x _ _ _ E2), (Hm _ _ _ E1). apply append_assoc.
Qed.

Lemma writes_then_ret {A : Type} (o : string) (m : M A) :
  writes o m -> writes o (bind m (fun _ => ret tt)).
Proof.
  intros Hm st r st' (x & st1 & E1 & [= _ <-])%bind_Some. exact (Hm _ _ _ E1).
Qed.

Lemma writes_exec c : writes (printed c) (exec c).
Proof.
  destruct c; simpl; try apply writes_then_ret; try apply writes_nothing;
    intros st r st' E.
  - destruct (new_Subsystem1_spec st) as (a & _ & E'). rewrite E in E'. by injection E' as _ ->.
  - destruct (new_Subsystem2_spec st) as (a & _ & E'). rewrite E in E'. by injection E' as _ ->.
  - by apply new_Facade_frame in E as [_ ?].
  - by apply Subsystem1_Operation1_inv in E as [-> _].
  - by apply Subsystem1_OperationN_inv in E as [-> _].
  - by apply Subsystem2_Operation1_inv in E as [-> _].
  - by apply Subsystem2_OperationZ_inv in E as [-> _].
  - by apply Facade_Operation_frame in E as [-> _].
  - unfold ClientCode in E. apply bind_Some in E as (s & st1 & Eo & Ew).
    pose proof Eo as Eo'. apply Facade_Operation_frame in Eo' as [-> Hr].
    rewrite (Facade_Operation_ready _ _ Hr) in Eo. injection Eo as <-.
    by injection Ew as _ <-.
  - by injection E as _ <-.
  - by apply delete_Subsystem1_inv in E as (_ & _ & ?).
  - by apply delete_Subsystem2_inv in E as (_ & _ & ?).
  - destruct p as [|a]; [by injection E as _ <-|].
    by apply delete_Facade_inv in E as (? & ? & _ & _ & _ & ?).
Qed.

(** X6: what a client program prints is fixed by its sequence of print
    statements alone.  Whenever a program of creations, operation calls,
    [ClientCode] calls, line breaks and deletions runs to completion, the
    text it has appended to [std::cout] is one copy of the Operation() text
    per [ClientCode] call and one line break per [endl], in program order,
    whichever facades were used and however they were built; constructors,
    destructors and the operations themselves print nothing. *)
Theorem output_fixed_by_print_statements
    (cs : list call) (st st' : state) :
  exec_all cs st = Some (tt, st') ->
  cout st' = cout st +:+ printed_all cs.
Proof.
  revert st. induction cs as [|c cs IH]; intros st; simpl.
  - intros [= <-]. symmetry. apply append_nil_r.
  - intros (u & st1 & E1 & E2)%bind_Some.
    rewrite (IH _ E2), (writes_exec c _ _ _ E1). apply append_assoc.
Qed.

Lemma output_fixed_by_print_statements_witness :
  exists st',
    exec_all mixed_calls mixed_state = Some (tt, st') /\
    cout st' = Operation_text +:+ newline.
Proof.
  eexists. split; [vm_compute; reflexivity|].
  exact (output_fixed_by_print_statements mixed_calls mixed_state _
           ltac:(vm_compute; reflexivity)).
Defined.

(** X7: constructing a facade never disturbs what already exists.  Every
    object live before the call is live and unchanged after it, the new
    facade sits at an address that was free, and every facade that was
    ready stays ready and still returns the expected text. *)
Theorem construction_leaves_existing_facades_ready
    (st : state) (p1 p2 g : ptr) :
  facade_ready st g = true ->
  exists a st',
    new_Facade p1 p2 st = Some (Addr a, st') /\
    heap st !! a = None /\
    heap st ⊆ heap st' /\
    g ≠ Addr a /\
    facade_ready st' g = true /\
    Facade_Operation g st' = Some (Operation_text, st').
Proof.
  intros Rg.
  destruct (new_Facade_spec st p1 p2)
    as (a & v1 & v2 & h1 & h2 & t1 & t2 & st1 & E & Ha & _).
  destruct (new_Facade_frame _ _ _ _ _ E) as [Hsub _].
  pose proof (facade_ready_weaken _ _ _ Hsub Rg) as Rg'.
  exists a, st1. split; [exact E|]. split; [exact Ha|]. split; [exact Hsub|].
  split.
  - intros ->. unfold facade_ready in Rg. by rewrite Ha in Rg.
  - split; [exact Rg'|exact (Facade_Operation_ready _ _ Rg')].
Qed.

Lemma construction_leaves_existing_facades_ready_witness :
  facade_ready demo_state (Addr 3) = true /\
  exists a st',
    new_Facade nullptr (Addr 2) demo_state = Some (Addr a, st') /\
    Facade_Operation (Addr 3) st' = Some (Operation_text, st').
Proof.
  split; [reflexivity|].
  destruct (construction_leaves_existing_facades_ready demo_state nullptr (Addr 2) (Addr 3)
              ltac:(reflexivity)) as (a & st' & E & _ & _ & _ & _ & Ho).
  exists a, st'. auto.
Defined.

(** X8: [delete] on a constructed facade is defined exactly when the facade
    is ready.  Then it releases the object of the first member, the object
    of the second member and the facade's own storage, in that order, and
    changes nothing else; if a member dangles the deletion is undefined. *)
Theorem delete_defined_iff_ready (st : state) (a a1 a2 : positive) :
  heap st !! a = Some (ObjFacade {| subsystem1_ := Some (Addr a1);
                                    subsystem2_ := Some (Addr a2) |}) ->
  delete_Facade (Addr a) st =
    if facade_ready st (Addr a)
    then Some (tt, {| heap := delete a (delete a2 (delete a1 (heap st)));
                      cout := cout st;
                      trace := trace st ++ [EvDelete a1; EvDelete a2; EvDelete a] |})
    else None.
Proof.
  intros Hf. destruct (facade_ready st (Addr a)) eqn:R.
  - destruct (delete_Facade_ready _ _ R)
      as (a' & b1 & b2 & [= <-] & Hf' & _ & _ & _ & _ & _ & Ed).
    rewrite Hf in Hf'. injection Hf' as <- <-. exact Ed.
  - exact (delete_Facade_not_ready _ _ _ _ Hf R).
Qed.

Lemma delete_defined_iff_ready_witness :
  heap demo_state !! 3%positive =
    Some (ObjFacade {| subsystem1_ := Some (Addr 1); subsystem2_ := Some (Addr 2) |}) /\
  delete_Facade (Addr 3) demo_state =
    Some (tt, {| heap := delete 3%positive (delete 2%positive (delete 1%positive demo_heap));
                 cout := "";
                 trace := [EvNew 1; EvNew 2; EvNew 3; EvDelete 1; EvDelete 2; EvDelete 3] |}).
Proof.
  split; [reflexivity|].
  exact (delete_defined_iff_ready demo_state 3 1 2 ltac:(reflexivity)).
Defined.

Lemma exec_grows c st st' :
  is_delete c = false -> exec c st = Some (tt, st') -> heap st ⊆ heap st'.
Proof.
  destruct c; simpl; try discriminate; intros _ E.
  - apply bind_Some in E as (x & st1 & E & [= <-]).
    destruct (new_Subsystem1_spec st) as (a & Ha & E'). rewrite E in E'.
    injection E' as _ ->. by apply insert_subseteq.
  - apply bind_Some in E as (x & st1 & E & [= <-]).
    destruct (new_Subsystem2_spec st) as (a & Ha & E'). rewrite E in E'.
    injection E' as _ ->. by apply insert_subseteq.
  - apply bind_Some in E as (x & st1 & E & [= <-]).
    by apply new_Facade_frame in E as [? _].
  - apply bind_Some in E as (x & st1 & E & [= <-]).
    by apply Subsystem1_Operation1_inv in E as [-> _].
  - apply bind_Some in E as (x & st1 & E & [= <-]).
    by apply Subsystem1_OperationN_inv in E as [-> _].
  - apply bind_Some in E as (x & st1 & E & [= <-]).
    by apply Subsystem2_Operation1_inv in E as [-> _].
  - apply bind_Some in E as (x & st1 & E & [= <-]).
    by apply Subsystem2_OperationZ_inv in E as [-> _].
  - apply bind_Some in E as (x & st1 & E & [= <-]).
    by apply Facade_Operation_frame in E as [-> _].
  - unfold ClientCode in E. apply bind_Some in E as (s & st1 & Eo & Ew).
    apply Facade_Operation_frame in Eo as [-> _]. by injection Ew as <-.
  - by injection E as <-.
Qed.

(** X9: only a deletion can break a facade.  Under any client program
    that contains no [delete] and runs to completion, every object stays
    on the free store unchanged, so a facade that was ready before is ready
    after and Operation() on it still returns the expected text. *)
Theorem ready_facade_survives_without_deletes
    (cs : list call) (st st' : state) (g : ptr) :
  no_deletes cs = true ->
  exec_all cs st = Some (tt, st') ->
  facade_ready st g = true ->
  heap st ⊆ heap st' /\
  facade_ready st' g = true /\
  Facade_Operation g st' = Some (Operation_text, st').
Proof.
  intros Hcs Hrun Rg.
  assert (heap st ⊆ heap st') as Hsub.
  { clear Rg. revert st Hrun Hcs. induction cs as [|c cs IH]; intros st; simpl.
    - intros [= <-] _. reflexivity.
    - intros (u & st1 & E1 & E2)%bind_Some [Hc Hcs]%andb_prop.
      destruct u. apply negb_true_iff in Hc.
      etransitivity; [exact (exec_grows _ _ _ Hc E1)|exact (IH _ E2 Hcs)]. }
  pose proof (facade_ready_weaken _ _ _ Hsub Rg) as Rg'.
  split; [exact Hsub|]. split; [exact Rg'|exact (Facade_Operation_ready _ _ Rg')].
Qed.

Lemma ready_facade_survives_without_deletes_witness :
  exists st',
    no_deletes growing_calls = true /\
    exec_all growing_calls demo_state = Some (tt, st') /\
    facade_ready demo_state (Addr 3) = true /\
    Facade_Operation (Addr 3) st' = Some (Operation_text, st').
Proof.
  eexists. split; [reflexivity|]. split; [vm_compute; reflexivity|].
  split; [reflexivity|].
  exact (proj2 (proj2 (ready_facade_survives_without_deletes growing_calls demo_state _
                         (Addr 3) ltac:(reflexivity) ltac:(vm_compute; reflexivity)
                         ltac:(reflexivity)))).
Defined.
